(** * Llama-chatbot: the request-dispatch core of [chatbot_app.py]

    A shallow embedding of [ChatBot.check_model], [ChatBot.get_response]
    and [ChatWorker] (lines 16-133 of [src/chatbot_app.py]).

    The Python code talks to the outside world through six calls:
    [subprocess.run], [import requests], [requests.post],
    [response.json], [subprocess.Popen] and [process.communicate].
    Each of them is an oracle of the environment [Env]: it either
    returns a value or raises an exception, and it takes some time.
    The program itself is written in a small monad that threads a clock
    and a trace of the calls made, and that carries Python exceptions. *)

From Stdlib Require Import List ZArith NArith Bool Ascii String Lia.
From Stdlib Require Import DecimalString.
Import ListNotations.

Local Open Scope Z_scope.

(* ================================================================== *)
(** ** Python [str]: a sequence of Unicode code points *)
(* ================================================================== *)

Module PyStr.

Definition str : Type := list N.

(** A literal of the source, written as a Rocq string of ASCII
    characters. *)
Definition lit (s : string) : str :=
  List.map N_of_ascii (list_ascii_of_string s).

(** The line feed, ["\n"] in the source. *)
Definition nl : str := [10%N].

(** [str.isspace] on one code point, as CPython's
    [_PyUnicode_IsWhitespace] decides it. *)
Definition is_space (c : N) : bool :=
  (((9 <=? c) && (c <=? 13)) || ((28 <=? c) && (c <=? 32))
   || (c =? 133) || (c =? 160) || (c =? 5760)
   || ((8192 <=? c) && (c <=? 8202))
   || (c =? 8232) || (c =? 8233) || (c =? 8239) || (c =? 8287)
   || (c =? 12288))%N.

Fixpoint lstrip (s : str) : str :=
  match s with
  | [] => []
  | c :: s' => if is_space c then lstrip s' else s
  end.

Definition rstrip (s : str) : str := rev (lstrip (rev s)).

(** [s.strip()] *)
Definition strip (s : str) : str := lstrip (rstrip s).

(** Truth value of a [str]: [if s] / [not s]. *)
Definition nonempty (s : str) : bool :=
  match s with [] => false | _ :: _ => true end.

Fixpoint eqb (a b : str) : bool :=
  match a, b with
  | [], [] => true
  | x :: a', y :: b' => (x =? y)%N && eqb a' b'
  | _, _ => false
  end.

Fixpoint is_prefix (p s : str) : bool :=
  match p, s with
  | [], _ => true
  | x :: p', y :: s' => (x =? y)%N && is_prefix p' s'
  | _ :: _, [] => false
  end.

(** [p in s] for two [str]. *)
Fixpoint is_substring (p s : str) : bool :=
  is_prefix p s
  || match s with
     | [] => false
     | _ :: s' => is_substring p s'
     end.

(** A [str] of white space only (the empty one included). *)
Definition all_space (s : str) : bool := forallb is_space s.

(** [str(n)] / [f"{n}"] for an [int]. *)
Definition of_Z (n : Z) : str :=
  lit (NilZero.string_of_int (Z.to_int n)).

End PyStr.
Import PyStr.

(* ================================================================== *)
(** ** Python values that the code handles *)
(* ================================================================== *)

(** What [response.json()] can give back, and what [check_model]
    returns ([True], [False], or [None] when the function falls off its
    end). A finite [float] is [mantissa * 2 ^ exponent]. A [dict] is
    kept as an association list, looked up from the front. *)
#[warnings="-register-all"] Inductive PyVal : Type :=
| PyNone
| PyBool (b : bool)
| PyInt (n : Z)
| PyFloat (mantissa exponent : Z)
| PyString (s : str)
| PyList (items : list PyVal)
| PyDict (items : list (str * PyVal)).

(** [bool(v)], the test of [if v] and [not v]. *)
Definition truthy (v : PyVal) : bool :=
  match v with
  | PyNone => false
  | PyBool b => b
  | PyInt n => negb (n =? 0)
  | PyFloat m _ => negb (m =? 0)
  | PyString s => nonempty s
  | PyList l => match l with [] => false | _ => true end
  | PyDict l => match l with [] => false | _ => true end
  end.

(** Is the value a [bool]? *)
Definition is_bool (v : PyVal) : bool :=
  match v with PyBool _ => true | _ => false end.

Fixpoint dict_get (k : str) (d : list (str * PyVal)) : option PyVal :=
  match d with
  | [] => None
  | (k', v) :: d' => if PyStr.eqb k k' then Some v else dict_get k d'
  end.

Definition is_str (k : str) (v : PyVal) : bool :=
  match v with PyString s => PyStr.eqb k s | _ => false end.

(* ================================================================== *)
(** ** Exceptions *)
(* ================================================================== *)

(** The classes the handlers of the source tell apart. All of them
    derive from [Exception]; every other subclass of [Exception] is
    [OtherError] with its class name. *)
Inductive ExnClass : Type :=
| ImportError
| TimeoutExpired
| FileNotFoundError
| OtherError (name : str).

Record Exn : Type := MkExn { exn_class : ExnClass; exn_str : str }.

Definition is_ImportError (e : Exn) : bool :=
  match exn_class e with ImportError => true | _ => false end.
Definition is_TimeoutExpired (e : Exn) : bool :=
  match exn_class e with TimeoutExpired => true | _ => false end.
Definition is_FileNotFoundError (e : Exn) : bool :=
  match exn_class e with FileNotFoundError => true | _ => false end.

Definition TypeError (msg : string) : Exn :=
  MkExn (OtherError (lit "TypeError")) (lit msg).
Definition AttributeError (msg : string) : Exn :=
  MkExn (OtherError (lit "AttributeError")) (lit msg).
Definition KeyError (k : str) : Exn :=
  MkExn (OtherError (lit "KeyError")) (lit "'" ++ k ++ lit "'").

(** The outcome of one operation: a value or a raised exception. *)
Inductive Outcome (A : Type) : Type :=
| Return (a : A)
| Raise (e : Exn).
Arguments Return {A} a.
Arguments Raise {A} e.

(** ['response' in v] *)
Definition py_contains (k : str) (v : PyVal) : Outcome bool :=
  match v with
  | PyDict d => Return (match dict_get k d with Some _ => true | None => false end)
  | PyList l => Return (existsb (is_str k) l)
  | PyString s => Return (is_substring k s)
  | _ => Raise (TypeError "argument is not iterable")
  end.

(** [v['response']] *)
Definition py_getitem (v : PyVal) (k : str) : Outcome PyVal :=
  match v with
  | PyDict d =>
      match dict_get k d with
      | Some x => Return x
      | None => Raise (KeyError k)
      end
  | PyList _ => Raise (TypeError "list indices must be integers or slices, not str")
  | PyString _ => Raise (TypeError "string indices must be integers")
  | _ => Raise (TypeError "object is not subscriptable")
  end.

(** [v.strip()], the method of a [str]; other values have none. *)
Definition py_strip (v : PyVal) : Outcome str :=
  match v with
  | PyString s => Return (strip s)
  | _ => Raise (AttributeError "object has no attribute 'strip'")
  end.

(** [result['response'].strip()], line 73. *)
Definition response_text (result : PyVal) : Outcome str :=
  match py_getitem result (lit "response") with
  | Return v => py_strip v
  | Raise e => Raise e
  end.

(* ================================================================== *)
(** ** The outside world *)
(* ================================================================== *)

(** [subprocess.CompletedProcess], as [subprocess.run] returns it with
    [capture_output=True, text=True]. *)
Record CompletedProcess : Type := MkCompleted {
  cp_returncode : Z;
  cp_stdout : str;
  cp_stderr : str
}.

(** A [requests.Response]: the status, the body, and what
    [response.json()] does on it. *)
Record Response : Type := MkResponse {
  status_code : Z;
  text : str;
  json : Outcome PyVal
}.

(** What [process.communicate] leaves behind when it returns:
    [(stdout, stderr)] and [process.returncode]. *)
Record Communicated : Type := MkCommunicated {
  stdout : str;
  stderr : str;
  returncode : Z
}.

(** An external call takes [took] milliseconds and then returns or
    raises. *)
Record Timed (A : Type) : Type := MkTimed {
  took : Z;
  outcome : Outcome A
}.
Arguments MkTimed {A} took outcome.
Arguments took {A} t.
Arguments outcome {A} t.

(** The environment of one dispatch. Timeouts are in seconds, as the
    source passes them. *)
Record Env : Type := MkEnv {
  (** [subprocess.run(argv, capture_output=True, text=True, timeout=t)] *)
  env_run : list str -> Z -> Timed CompletedProcess;
  (** [import requests] *)
  env_import_requests : Outcome unit;
  (** [requests.post(url, json=body, timeout=t)] *)
  env_post : str -> PyVal -> Z -> Timed Response;
  (** [subprocess.Popen(argv, stdin=PIPE, stdout=PIPE, stderr=PIPE, ...)] *)
  env_popen : list str -> Timed unit;
  (** [process.communicate(input=s, timeout=t)] *)
  env_communicate : str -> Z -> Timed Communicated
}.

(** The lines the code prints, by print site. *)
Inductive Diagnostic : Type :=
| DiagVersion (v : str)
| DiagOllamaFailed
| DiagTestFailed (e : Exn)
| DiagModelNotFound (model : str)
| DiagCheckFailed (e : Exn)
| DiagApiResponse (result : PyVal)
| DiagApiError (status : Z) (body : str)
| DiagNoRequests
| DiagApiFailed (e : Exn).

(** What a run of the program does to the world, in order. *)
Inductive Event : Type :=
| EvRun (argv : list str) (timeout : Z)
| EvImportRequests
| EvPost (url : str) (body : PyVal) (timeout : Z)
| EvJson
| EvPopen (argv : list str)
| EvCommunicate (input : str) (timeout : Z)
| EvPrint (d : Diagnostic)
| EvSleep (ms : Z)
| EvEmit (response : str).

Record World : Type := MkWorld {
  clock : Z;
  trace : list Event
}.

Definition world0 : World := MkWorld 0 [].

(* ================================================================== *)
(** ** The monad of the program: world passing with exceptions *)
(* ================================================================== *)

Module Py.

Definition M (A : Type) : Type := World -> World * Outcome A.

Definition ret {A} (a : A) : M A := fun w => (w, Return a).

Definition raise {A} (e : Exn) : M A := fun w => (w, Raise e).

Definition bind {A B} (c : M A) (k : A -> M B) : M B :=
  fun w =>
    match c w with
    | (w', Return a) => k a w'
    | (w', Raise e) => (w', Raise e)
    end.

(** [try: body  except Exception as e: handler e] *)
Definition try_except {A} (body : M A) (handler : Exn -> M A) : M A :=
  fun w =>
    match body w with
    | (w', Return a) => (w', Return a)
    | (w', Raise e) => handler e w'
    end.

(** A pure operation that may raise. *)
Definition lift {A} (o : Outcome A) : M A := fun w => (w, o).

(** An external call: it is recorded, takes its time, and gives its
    outcome. *)
Definition call {A} (ev : Event) (t : Timed A) : M A :=
  fun w => (MkWorld (clock w + took t) (trace w ++ [ev]), outcome t).

Definition print (d : Diagnostic) : M unit :=
  fun w => (MkWorld (clock w) (trace w ++ [EvPrint d]), Return tt).

End Py.
Import Py.

Declare Scope py_scope.
Delimit Scope py_scope with py.
Notation "x <- c ;; k" := (bind c (fun x => k))
  (at level 61, c at next level, right associativity) : py_scope.
Notation "c ;; k" := (bind c (fun _ => k))
  (at level 61, right associativity) : py_scope.
Local Open Scope py_scope.

(** Running a computation from a given world. *)
Definition result_of {A} (r : World * Outcome A) : Outcome A := snd r.
Definition events_of {A} (r : World * Outcome A) : list Event := trace (fst r).
Definition elapsed_of {A} (r : World * Outcome A) : Z := clock (fst r).

(* ================================================================== *)
(** ** class ChatBot *)
(* ================================================================== *)

(** The attributes [__init__] sets. *)
Record ChatBot : Type := MkChatBot {
  model_name : str;
  timeout_seconds : Z
}.

(** [ChatBot()] : [timeout_seconds=120], [model_name = "llama3.2"]. *)
Definition default_chatbot : ChatBot := MkChatBot (lit "llama3.2") 120.

Definition api_url : str := lit "http://localhost:11434/api/generate".

Definition msg_unavailable (self : ChatBot) : str :=
  lit "Error: Model '" ++ model_name self
  ++ lit "' is not available. Please run 'ollama pull "
  ++ model_name self ++ lit "' to download it.".

Definition msg_unexpected_format : str :=
  lit "Received unexpected response format from Llama API.".

Definition msg_process_error (error_msg : str) : str :=
  lit "Error running Llama model: " ++ error_msg.

Definition msg_empty_response : str :=
  lit "I'm sorry, I couldn't generate a response right now. Please try again.".

Definition msg_timeout (timeout_minutes : Z) : str :=
  lit "The request is taking longer than expected (over "
  ++ of_Z timeout_minutes
  ++ lit " minutes). This can happen with complex or very long prompts. You can try:"
  ++ nl ++ nl ++ lit "1. Breaking your question into smaller parts"
  ++ nl ++ lit "2. Waiting a bit longer and trying again"
  ++ nl ++ lit "3. Using a shorter, more specific prompt".

Definition msg_not_installed : str :=
  lit "Error: Ollama is not installed or not found in PATH. Please install Ollama first.".

Definition msg_unknown (e : Exn) : str :=
  lit "I encountered an error: " ++ exn_str e ++ lit ". Please try again.".

Section ChatBot.

Variable env : Env.
Variable self : ChatBot.

Definition subprocess_run (argv : list str) (timeout : Z) : M CompletedProcess :=
  call (EvRun argv timeout) (env_run env argv timeout).

(** The import and the parsing of the body are not charged to the
    clock. *)
Definition import_requests : M unit :=
  call EvImportRequests (MkTimed 0 (env_import_requests env)).

Definition requests_post (url : str) (body : PyVal) (timeout : Z) : M Response :=
  call (EvPost url body timeout) (env_post env url body timeout).

Definition response_json (response : Response) : M PyVal :=
  call EvJson (MkTimed 0 (json response)).

Definition subprocess_Popen (argv : list str) : M unit :=
  call (EvPopen argv) (env_popen env argv).

Definition process_communicate (input : str) (timeout : Z) : M Communicated :=
  call (EvCommunicate input timeout) (env_communicate env input timeout).

(** [ChatBot.test_ollama], lines 23-33. *)
Definition test_ollama : M unit :=
  try_except
    (result <- subprocess_run [lit "ollama"; lit "--version"] 10 ;;
     if cp_returncode result =? 0
     then print (DiagVersion (strip (cp_stdout result)))
     else print DiagOllamaFailed)
    (fun e => print (DiagTestFailed e)).

(** [ChatBot.check_model], lines 35-48. The [if] on the return code
    has no [else]: with a non-zero code the function falls off its end
    and gives [None]. *)
Definition check_model : M PyVal :=
  try_except
    (result <- subprocess_run [lit "ollama"; lit "list"] 10 ;;
     if cp_returncode result =? 0 then
       if is_substring (model_name self) (cp_stdout result) then
         ret (PyBool true)
       else
         print (DiagModelNotFound (model_name self)) ;;
         ret (PyBool false)
     else
       ret PyNone)
    (fun e =>
       print (DiagCheckFailed e) ;;
       ret (PyBool false)).

(** The [json=] argument of [requests.post], lines 62-66. *)
Definition request_body (user_message : str) : PyVal :=
  PyDict [(lit "model", PyString (model_name self));
          (lit "prompt", PyString user_message);
          (lit "stream", PyBool false)].

(** The inner [try] of [get_response], lines 58-84. [Some s] is a
    [return s] out of [get_response]; [None] is control reaching the
    end of the statement, line 86. *)
Definition structured_attempt (user_message : str) : M (option str) :=
  try_except
    (import_requests ;;
     response <- requests_post api_url (request_body user_message)
                   (timeout_seconds self) ;;
     if status_code response =? 200 then
       result <- response_json response ;;
       has <- lift (py_contains (lit "response") result) ;;
       if (has : bool) then
         s <- lift (response_text result) ;;
         ret (Some s)
       else
         print (DiagApiResponse result) ;;
         ret (Some msg_unexpected_format)
     else
       print (DiagApiError (status_code response) (text response)) ;;
       ret None)
    (fun e =>
       if is_ImportError e then
         print DiagNoRequests ;;
         ret None
       else
         print (DiagApiFailed e) ;;
         ret None).

(** What lines 99-108 make of a finished process. *)
Definition process_result (r : Communicated) : str :=
  if negb (returncode r =? 0) then
    let error_msg :=
      if nonempty (stderr r) then strip (stderr r) else lit "Unknown error" in
    msg_process_error error_msg
  else
    let response := strip (stdout r) in
    if negb (nonempty response) then msg_empty_response
    else response.

(** Lines 86-108. *)
Definition process_attempt (user_message : str) : M str :=
  subprocess_Popen [lit "ollama"; lit "run"; model_name self] ;;
  r <- process_communicate (user_message ++ nl) (timeout_seconds self) ;;
  ret (process_result r).

(** The three handlers of the outer [try], lines 110-116. *)
Definition get_response_handler (e : Exn) : M str :=
  if is_TimeoutExpired e then
    let timeout_minutes := timeout_seconds self / 60 in
    ret (msg_timeout timeout_minutes)
  else if is_FileNotFoundError e then
    ret msg_not_installed
  else
    ret (msg_unknown e).

(** [ChatBot.get_response], lines 50-116. *)
Definition get_response (user_message : str) : M str :=
  try_except
    (known <- check_model ;;
     if negb (truthy known) then
       ret (msg_unavailable self)
     else
       r <- structured_attempt user_message ;;
       match r with
       | Some s => ret s
       | None => process_attempt user_message
       end)
    get_response_handler.

(** [ChatWorker.run], lines 130-133, on the message the worker holds. *)
Definition run (user_message : str) : M unit :=
  call (EvSleep 500) (MkTimed 500 (Return tt)) ;;
  response <- get_response user_message ;;
  call (EvEmit response) (MkTimed 0 (Return tt)).

End ChatBot.

Arguments lit : simpl never.

(* ================================================================== *)
(** ** One dispatch, and what is observed of it *)
(* ================================================================== *)

(** A dispatch: [get_response] run in a fresh world. *)
Definition dispatch (env : Env) (self : ChatBot) (prompt : str)
  : World * Outcome str :=
  get_response env self prompt world0.

(** The answer of the availability check as [get_response] reads it:
    [check_model()] is truthy. *)
Definition model_known (env : Env) (self : ChatBot) : bool :=
  match result_of (check_model env self world0) with
  | Return v => truthy v
  | Raise _ => false
  end.

Definition is_post (ev : Event) : bool :=
  match ev with EvPost _ _ _ => true | _ => false end.

Definition is_popen (ev : Event) : bool :=
  match ev with EvPopen _ => true | _ => false end.

Definition is_communicate (ev : Event) : bool :=
  match ev with EvCommunicate _ _ => true | _ => false end.

(** Number of times the structured transport was called. *)
Definition structured_calls (t : list Event) : nat :=
  List.length (filter is_post t).

(** Number of times the process transport was started. *)
Definition process_starts (t : list Event) : nat :=
  List.length (filter is_popen t).

(** All calls to either transport. *)
Definition transport_calls (t : list Event) : nat :=
  List.length (filter (fun ev => is_post ev || is_popen ev || is_communicate ev) t).

(** The signals emitted, in order. *)
Definition emissions (t : list Event) : list str :=
  flat_map (fun ev => match ev with EvEmit r => [r] | _ => [] end) t.

(** Lines 57-108 under the handlers of [get_response]: what the
    dispatch does once the model is known. *)
Definition transports (env : Env) (self : ChatBot) (prompt : str) : M str :=
  try_except
    (r <- structured_attempt env self prompt ;;
     match r with
     | Some s => ret s
     | None => process_attempt env self prompt
     end)
    (get_response_handler self).

(** [c] only adds events to the trace, all of them accepted by [ok]. *)
Definition appends {A} (ok : Event -> bool) (c : M A) : Prop :=
  forall w, exists evs,
    trace (fst (c w)) = trace w ++ evs /\ forallb ok evs = true.

(** [c] always returns: no exception leaves it. *)
Definition total {A} (c : M A) : Prop :=
  forall w, exists a, result_of (c w) = Return a.

(** The events of the availability check. *)
Definition is_check_event (ev : Event) : bool :=
  match ev with EvRun _ _ | EvPrint _ => true | _ => false end.

(** The events of the structured transport. *)
Definition is_structured_event (ev : Event) : bool :=
  match ev with
  | EvImportRequests | EvPost _ _ _ | EvJson | EvPrint _ => true
  | _ => false
  end.

(** What is left of an attempt when [requests] is not there. *)
Definition is_import_event (ev : Event) : bool :=
  match ev with EvImportRequests | EvPrint _ => true | _ => false end.

(** Everything but the signal of the worker. *)
Definition is_not_emit (ev : Event) : bool :=
  match ev with EvEmit _ => false | _ => true end.

(** The process transport under the handlers of [get_response]: what
    the dispatch returns once control has reached line 86. *)
Definition process_path (env : Env) (self : ChatBot) (prompt : str) : M str :=
  try_except (process_attempt env self prompt) (get_response_handler self).

Section Failures.

Variable env : Env.
Variable self : ChatBot.
Variable prompt : str.

(** The one call of the structured transport in a dispatch. *)
Definition posted : Timed Response :=
  env_post env api_url (request_body self prompt) (timeout_seconds self).

(** The ways the structured transport fails after which line 86 is
    reached: the call raises; the status is not 200; [response.json()]
    raises; the value it gives cannot be searched for the field, or the
    field is there and is not a [str]. *)
Inductive structured_failure : Prop :=
| ConnectionFailure (e : Exn) :
    outcome posted = Raise e ->
    structured_failure
| BadStatus (response : Response) :
    outcome posted = Return response ->
    status_code response <> 200 ->
    structured_failure
| MalformedPayload (response : Response) (e : Exn) :
    outcome posted = Return response ->
    status_code response = 200 ->
    json response = Raise e ->
    structured_failure
| UnusablePayload (response : Response) (result : PyVal) (e : Exn) :
    outcome posted = Return response ->
    status_code response = 200 ->
    json response = Return result ->
    py_contains (lit "response") result = Raise e
    \/ (py_contains (lit "response") result = Return true
        /\ response_text result = Raise e) ->
    structured_failure.

(** Status 200 and a payload in which ['response' in result] is false. *)
Definition missing_field : Prop :=
  exists response result,
    outcome posted = Return response
    /\ status_code response = 200
    /\ json response = Return result
    /\ py_contains (lit "response") result = Return false.

End Failures.

(* ================================================================== *)
(** ** Time *)
(* ================================================================== *)

(** Every call returns or raises within the timeout it was given
    (seconds; the clock is in milliseconds), and starting a process
    takes at most [c] milliseconds. *)
Definition honours_timeouts (c : Z) (env : Env) : Prop :=
  (forall argv t, 0 <= t -> 0 <= took (env_run env argv t) <= 1000 * t)
  /\ (forall url body t, 0 <= t -> 0 <= took (env_post env url body t) <= 1000 * t)
  /\ (forall argv, 0 <= took (env_popen env argv) <= c)
  /\ (forall input t, 0 <= t -> 0 <= took (env_communicate env input t) <= 1000 * t).

(** The time one dispatch takes. *)
Definition latency (env : Env) (self : ChatBot) (prompt : str) : Z :=
  elapsed_of (dispatch env self prompt).

(** "Dispatch returns within the configured deadline plus an overhead of
    [c] milliseconds", for every environment that honours the timeouts
    it is given. *)
Definition returns_within_deadline (c : Z) : Prop :=
  forall env self prompt,
    0 <= timeout_seconds self ->
    honours_timeouts c env ->
    latency env self prompt <= 1000 * timeout_seconds self + c.

(** The timeout a transport call was given is the whole configured
    deadline. *)
Definition gets_full_deadline (self : ChatBot) (ev : Event) : bool :=
  match ev with
  | EvPost _ _ t | EvCommunicate _ t => t =? timeout_seconds self
  | _ => true
  end.

(* ================================================================== *)
(** ** class ChatWorker(QThread) *)
(* ================================================================== *)

(** Where the thread of the worker is: not running; started, [run] not
    yet past [msleep]; [run] done and the thread about to finish. *)
Inductive Phase : Type :=
| Idle
| Running
| Finishing.

(** The worker: its attribute [user_message], its thread, the world its
    runs have acted on, and two counters kept for the proofs: the
    calls of [process_message], and those whose [start()] began a run. *)
Record ChatWorker : Type := MkWorker {
  user_message : str;
  phase : Phase;
  world : World;
  submitted : nat;
  started : nat
}.

Definition new_worker : ChatWorker := MkWorker [] Idle world0 0 0.

(** The atomic steps of the two threads. [process_message(m)] is
    [SetMessage m] then [Start] on the caller's thread; [ThreadStep] is
    a step of the worker's thread. *)
Inductive Action : Type :=
| SetMessage (m : str)
| Start
| ThreadStep.

(** [ChatWorker.process_message], lines 126-128, as the caller's two
    steps. *)
Definition process_message (message : str) : list Action :=
  [SetMessage message; Start].

Section ChatWorker.

Variable env : Env.
Variable chatbot : ChatBot.

(** One step. [QThread.start()] does nothing when the thread is already
    running. A running thread reads [self.user_message] when [run]
    calls [get_response], line 132. *)
Definition step (s : ChatWorker) (a : Action) : ChatWorker :=
  match a with
  | SetMessage m =>
      MkWorker m (phase s) (world s) (S (submitted s)) (started s)
  | Start =>
      match phase s with
      | Idle => MkWorker (user_message s) Running (world s) (submitted s) (S (started s))
      | _ => s
      end
  | ThreadStep =>
      match phase s with
      | Idle => s
      | Running =>
          MkWorker (user_message s) Finishing
                   (fst (run env chatbot (user_message s) (world s)))
                   (submitted s) (started s)
      | Finishing =>
          MkWorker (user_message s) Idle (world s) (submitted s) (started s)
      end
  end.

Definition exec (sched : list Action) (s : ChatWorker) : ChatWorker :=
  fold_left step sched s.


(** The completion callbacks delivered so far: one per emission of
    [response_ready]. *)
Definition delivered (s : ChatWorker) : list str :=
  emissions (trace (world s)).

Definition in_flight (s : ChatWorker) : nat :=
  match phase s with Running => 1%nat | _ => 0%nat end.

(** Every run that was started has delivered its callback or is still
    in flight. *)
Definition accounted (s : ChatWorker) : Prop :=
  (List.length (delivered s) + in_flight s = started s)%nat.

(** The world in which [run] calls [get_response]: after [msleep(500)]. *)
Definition after_sleep (w : World) : World :=
  fst (call (EvSleep 500) (MkTimed 500 (Return tt)) w).

End ChatWorker.



(* ================================================================== *)
(** ** Environments used as examples *)
(* ================================================================== *)

Definition at_once {A} (a : A) : Timed A := MkTimed 0 (Return a).

Definition failing {A} (cls : string) (msg : string) : Timed A :=
  MkTimed 0 (Raise (MkExn (OtherError (lit cls)) (lit msg))).

(** [ollama list] succeeds and lists the model. *)
Definition listing_ok : list str -> Z -> Timed CompletedProcess :=
  fun _ _ => at_once (MkCompleted 0 (lit "NAME  ID  SIZE llama3.2:latest a80c4f17acd5 2.0 GB") []).

(** [ollama list] exits with status 1. *)
Definition listing_fails : list str -> Z -> Timed CompletedProcess :=
  fun _ _ => at_once (MkCompleted 1 [] (lit "Error: could not connect to ollama app")).

(** [ollama run] prints an answer and exits with status 0. *)
Definition process_ok : str -> Z -> Timed Communicated :=
  fun _ _ => at_once (MkCommunicated (lit "Hi there") [] 0).

(** The API answers 200 with the given JSON value. *)
Definition api_answers (payload : PyVal) : str -> PyVal -> Z -> Timed Response :=
  fun _ _ _ => at_once (MkResponse 200 [] (Return payload)).

(** Scenario A: the API answers [{"response": "Hello!"}]. *)
Definition env_hello : Env :=
  MkEnv listing_ok (Return tt)
        (api_answers (PyDict [(lit "response", PyString (lit "Hello!"))]))
        (fun _ => at_once tt) process_ok.

(** The API answers 200 with a text that has white space at both
    ends. *)
Definition env_hello_padded : Env :=
  MkEnv listing_ok (Return tt)
        (api_answers (PyDict [(lit "response", PyString (lit "  Hello! " ++ nl))]))
        (fun _ => at_once tt) process_ok.

(** An HTTP status of success: any of 200 to 299. The source tests
    for 200 alone, line 70. *)
Definition is_success_status (code : Z) : bool :=
  (200 <=? code) && (code <? 300).

(** The API answers 201 Created with [{"response": "Hello!"}]. *)
Definition env_created : Env :=
  MkEnv listing_ok (Return tt)
        (fun _ _ _ =>
           at_once (MkResponse 201 []
                      (Return (PyDict [(lit "response", PyString (lit "Hello!"))]))))
        (fun _ => at_once tt) process_ok.

(** The API answers 200 with an empty [response] field. *)
Definition env_empty_field : Env :=
  MkEnv listing_ok (Return tt)
        (api_answers (PyDict [(lit "response", PyString [])]))
        (fun _ => at_once tt) process_ok.

(** The API answers 200 with an object that has no [response] field. *)
Definition env_no_field : Env :=
  MkEnv listing_ok (Return tt)
        (api_answers (PyDict [(lit "error", PyString (lit "model is loading"))]))
        (fun _ => at_once tt) process_ok.

(** Scenario B: the API is unreachable, the process answers. *)
Definition env_unreachable : Env :=
  MkEnv listing_ok (Return tt)
        (fun _ _ _ => failing "ConnectionError" "connection refused")
        (fun _ => at_once tt) process_ok.

(** The [requests] module is not installed. *)
Definition env_no_requests : Env :=
  MkEnv listing_ok (Raise (MkExn ImportError (lit "No module named 'requests'")))
        (api_answers PyNone)
        (fun _ => at_once tt) process_ok.

(** Scenario C: the model is not listed. *)
Definition env_unknown_model : Env :=
  MkEnv (fun _ _ => at_once (MkCompleted 0 (lit "NAME  ID  SIZE") []))
        (Return tt) (api_answers PyNone) (fun _ => at_once tt) process_ok.

(** The listing command exits with a non-zero status. *)
Definition env_listing_fails : Env :=
  MkEnv listing_fails (Return tt) (api_answers PyNone)
        (fun _ => at_once tt) process_ok.

(** Both transports use up the whole timeout they are given: the API
    call times out, the process answers just in time. *)
Definition env_slow : Env :=
  MkEnv listing_ok (Return tt)
        (fun _ _ t => MkTimed (1000 * t)
                        (Raise (MkExn (OtherError (lit "ReadTimeout")) (lit "Read timed out."))))
        (fun _ => at_once tt)
        (fun _ t => MkTimed (1000 * t) (Return (MkCommunicated (lit "Hi there") [] 0))).

(** Scenario D: the API call and the process both run out of time. *)
Definition env_both_time_out : Env :=
  MkEnv listing_ok (Return tt)
        (fun _ _ t => MkTimed (1000 * t)
                        (Raise (MkExn (OtherError (lit "ReadTimeout")) (lit "Read timed out."))))
        (fun _ => at_once tt)
        (fun _ t => MkTimed (1000 * t)
                      (Raise (MkExn TimeoutExpired (lit "Command timed out")))).

(** The [ollama] binary is not on the path. *)
Definition env_no_binary : Env :=
  MkEnv (fun _ _ => MkTimed 0 (Raise (MkExn FileNotFoundError
                                        (lit "[Errno 2] No such file or directory: 'ollama'"))))
        (Return tt) (api_answers PyNone)
        (fun _ => MkTimed 0 (Raise (MkExn FileNotFoundError
                                      (lit "[Errno 2] No such file or directory: 'ollama'"))))
        process_ok.


(* ================================================================== *)
(** ** More of [ChatBot]: construction, and the calls of a dispatch *)
(* ================================================================== *)

(** [ChatBot.__init__], lines 18-21: the two attributes are set and
    [test_ollama] is run. *)
Definition ChatBot_init (env : Env) (timeout_seconds : Z) : M ChatBot :=
  let self := MkChatBot (lit "llama3.2") timeout_seconds in
  test_ollama env ;;
  ret self.

(** The external calls, by kind. *)
Inductive CallKind : Type :=
| KRun
| KImport
| KPost
| KJson
| KPopen
| KCommunicate.

Definition kind_eqb (a b : CallKind) : bool :=
  match a, b with
  | KRun, KRun | KImport, KImport | KPost, KPost | KJson, KJson
  | KPopen, KPopen | KCommunicate, KCommunicate => true
  | _, _ => false
  end.

Definition kind_of (ev : Event) : list CallKind :=
  match ev with
  | EvRun _ _ => [KRun]
  | EvImportRequests => [KImport]
  | EvPost _ _ _ => [KPost]
  | EvJson => [KJson]
  | EvPopen _ => [KPopen]
  | EvCommunicate _ _ => [KCommunicate]
  | EvPrint _ | EvSleep _ | EvEmit _ => []
  end.

(** The external calls of a trace, in order, without the printing. *)
Definition calls_of (t : list Event) : list CallKind := flat_map kind_of t.

Definition prints_of (t : list Event) : list Diagnostic :=
  flat_map (fun ev => match ev with EvPrint d => [d] | _ => [] end) t.

(** [a] is [b] with some elements left out. *)
Fixpoint is_subseq (a b : list CallKind) : bool :=
  match a, b with
  | [], _ => true
  | _ :: _, [] => false
  | x :: a', y :: b' =>
      if kind_eqb x y then is_subseq a' b' else is_subseq a b'
  end.

(** The arguments the source gives to each call of a dispatch. *)
Definition expected_call (self : ChatBot) (prompt : str) (ev : Event) : Prop :=
  match ev with
  | EvRun argv t => argv = [lit "ollama"; lit "list"] /\ t = 10
  | EvPost url body t =>
      url = api_url /\ body = request_body self prompt /\ t = timeout_seconds self
  | EvPopen argv => argv = [lit "ollama"; lit "run"; model_name self]
  | EvCommunicate input t => input = prompt ++ nl /\ t = timeout_seconds self
  | _ => True
  end.

(** The structured transport is skipped or fails, and line 86 is
    reached. *)
Definition falls_back (env : Env) (self : ChatBot) (prompt : str) : Prop :=
  (exists e, env_import_requests env = Raise e)
  \/ (env_import_requests env = Return tt /\ structured_failure env self prompt).

(** The start of the process and the exchange with it, as a dispatch
    calls them. *)
Definition popened (env : Env) (self : ChatBot) : Timed unit :=
  env_popen env [lit "ollama"; lit "run"; model_name self].

Definition communicated (env : Env) (self : ChatBot) (prompt : str)
  : Timed Communicated :=
  env_communicate env (prompt ++ nl) (timeout_seconds self).

(** A value that is not a [str]. *)
Definition not_text (v : PyVal) : bool :=
  match v with PyString _ => false | _ => true end.

(** [None], a [bool] or a number: a value that [in] cannot search. *)
Definition is_scalar (v : PyVal) : bool :=
  match v with
  | PyNone | PyBool _ | PyInt _ | PyFloat _ _ => true
  | _ => false
  end.

(** The text a dispatch returns. *)
Definition answer (env : Env) (self : ChatBot) (prompt : str) : str :=
  match result_of (dispatch env self prompt) with
  | Return s => s
  | Raise _ => []
  end.

(** One submit on the caller's thread, then the worker's thread run to
    its end. *)
Definition round (message : str) : list Action :=
  process_message message ++ [ThreadStep; ThreadStep].

(** The listing works, the API is unreachable, and the binary cannot be
    started. *)
Definition env_popen_missing : Env :=
  MkEnv listing_ok (Return tt)
        (fun _ _ _ => failing "ConnectionError" "connection refused")
        (fun _ => MkTimed 0 (Raise (MkExn FileNotFoundError
                                      (lit "[Errno 2] No such file or directory: 'ollama'"))))
        process_ok.

(** The process fails and writes a single line feed to stderr. *)
Definition env_blank_stderr : Env :=
  MkEnv listing_ok (Return tt)
        (fun _ _ _ => failing "ConnectionError" "connection refused")
        (fun _ => at_once tt)
        (fun _ _ => at_once (MkCommunicated [] nl 1)).

(** The API answers [{"response": null}]. *)
Definition env_null_field : Env :=
  MkEnv listing_ok (Return tt)
        (api_answers (PyDict [(lit "response", PyNone)]))
        (fun _ => at_once tt) process_ok.

(* ================================================================== *)
(** ** class ChatMessage, class ChatbotUI *)
(* ================================================================== *)

Module UI.

(** [ChatMessage], lines 10-14. A time stamp is a reading of the clock
    of the machine. *)
Record ChatMessage : Type := MkChatMessage {
  text : str;
  is_user : bool;
  timestamp : Z
}.

(** [ChatMessage(text, is_user, timestamp)]: [timestamp or
    datetime.now()], where [now] is what [datetime.now()] gives. *)
Definition new_message (now : Z) (text : str) (is_user : bool)
    (timestamp : option Z) : ChatMessage :=
  MkChatMessage text is_user
    match timestamp with Some t => t | None => now end.

(** What [messages_layout] holds: the stretch of line 338, the widget
    of a message, a "Generating..." widget (an object of its own, told
    apart by a number). *)
Inductive Item : Type :=
| Stretch
| MessageWidget (message : ChatMessage)
| GeneratingWidget (widget : nat).

(** The colour of a typing dot: [#3498DB] or [#BDC3C7]. *)
Inductive Colour : Type :=
| Lit
| Dimmed.

(** Calls on Qt objects that are only recorded. *)
Inductive Effect : Type :=
| FxScrollLater (ms : Z)
| FxTimerStart (timer : nat) (ms : Z)
| FxTimerStop (timer : nat)
| FxDeleteLater (object : nat).

(** The attributes of the window that the methods below read and
    write. [fresh] numbers the objects created. A [typing_dots] that
    does not exist yet is the empty list: line 540 treats both alike. *)
Record ChatbotUI : Type := MkUI {
  messages : list ChatMessage;
  messages_layout : list Item;
  generating_widget : option nat;
  generating_message : option ChatMessage;
  typing_timer : option nat;
  typing_dots : list Colour;
  typing_dot_index : nat;
  message_input : str;
  chat_worker : ChatWorker;
  effects : list Effect;
  fresh : nat
}.

(** [QBoxLayout.insertWidget(index, widget)]: at the end for a negative
    index, and for one past the end; before the item at [index]
    otherwise. *)
Definition insertWidget (index : Z) (item : Item) (layout : list Item)
  : list Item :=
  if index <? 0 then layout ++ [item]
  else firstn (Z.to_nat index) layout ++ item :: skipn (Z.to_nat index) layout.

(** [QLayout.removeWidget] for a "Generating..." widget. *)
Fixpoint removeWidget (widget : nat) (layout : list Item) : list Item :=
  match layout with
  | [] => []
  | GeneratingWidget g :: rest =>
      if Nat.eqb g widget then rest
      else GeneratingWidget g :: removeWidget widget rest
  | item :: rest => item :: removeWidget widget rest
  end.

Definition welcome : str :=
  lit "Hello! I'm LlamaBot powered by Llama 3.2. How can I help you today?".

Section Methods.

Variable env : Env.
Variable chatbot : ChatBot.

(** [add_message], lines 428-439. *)
Definition add_message (now : Z) (text : str) (is_user : bool)
    (self : ChatbotUI) : ChatbotUI :=
  let message := new_message now text is_user None in
  let messages' := messages self ++ [message] in
  MkUI messages'
       (insertWidget (Z.of_nat (List.length messages') - 1)
                     (MessageWidget message) (messages_layout self))
       (generating_widget self) (generating_message self)
       (typing_timer self) (typing_dots self) (typing_dot_index self)
       (message_input self) (chat_worker self)
       (effects self ++ [FxScrollLater 100])
       (fresh self).

(** [add_generating_message], lines 446-458, with
    [create_generating_widget], lines 473-529, and
    [start_typing_animation], lines 531-536, which it runs: three lit
    dots, a new timer started at 500 ms, the index at 0. *)
Definition add_generating_message (now : Z) (self : ChatbotUI) : ChatbotUI :=
  let widget := fresh self in
  let timer := S (fresh self) in
  MkUI (messages self)
       (insertWidget (Z.of_nat (List.length (messages self)))
                     (GeneratingWidget widget) (messages_layout self))
       (Some widget)
       (Some (new_message now (lit "Generating...") false None))
       (Some timer) [Lit; Lit; Lit] 0
       (message_input self) (chat_worker self)
       (effects self ++ [FxTimerStart timer 500; FxScrollLater 100])
       (S (S (fresh self))).

(** [remove_generating_message], lines 460-471. With a widget and no
    timer, [self.typing_timer.stop()] is a call on [None]. *)
Definition remove_generating_message (self : ChatbotUI) : Outcome ChatbotUI :=
  match generating_widget self with
  | Some widget =>
      match typing_timer self with
      | Some timer =>
          Return
            (MkUI (messages self)
                  (removeWidget widget (messages_layout self))
                  None (generating_message self)
                  (typing_timer self) (typing_dots self) (typing_dot_index self)
                  (message_input self) (chat_worker self)
                  (effects self ++ [FxTimerStop timer; FxDeleteLater timer;
                                    FxDeleteLater widget])
                  (fresh self))
      | None => Raise (AttributeError "'NoneType' object has no attribute 'stop'")
      end
  | None => Return self
  end.

(** [send_message], lines 406-421. [now] and [now'] are the clock when
    the two messages are made. *)
Definition send_message (now now' : Z) (self : ChatbotUI) : ChatbotUI :=
  let message_text := strip (message_input self) in
  if negb (nonempty message_text) then self
  else
    let self1 := add_message now message_text true self in
    let self2 :=
      MkUI (messages self1) (messages_layout self1)
           (generating_widget self1) (generating_message self1)
           (typing_timer self1) (typing_dots self1) (typing_dot_index self1)
           [] (chat_worker self1) (effects self1) (fresh self1) in
    let self3 := add_generating_message now' self2 in
    MkUI (messages self3) (messages_layout self3)
         (generating_widget self3) (generating_message self3)
         (typing_timer self3) (typing_dots self3) (typing_dot_index self3)
         (message_input self3)
         (exec env chatbot (process_message message_text) (chat_worker self3))
         (effects self3) (fresh self3).

(** [handle_bot_response], lines 423-426. *)
Definition handle_bot_response (response : str) (now : Z) (self : ChatbotUI)
  : Outcome ChatbotUI :=
  match remove_generating_message self with
  | Return self1 => Return (add_message now response false self1)
  | Raise e => Raise e
  end.

(** [typing_dots[i].setStyleSheet(...)] for the lit colour. *)
Fixpoint light (i : nat) (dots : list Colour) : list Colour :=
  match dots, i with
  | [], _ => []
  | _ :: rest, O => Lit :: rest
  | d :: rest, S i' => d :: light i' rest
  end.

(** [animate_typing_dots], lines 538-562. *)
Definition animate_typing_dots (self : ChatbotUI) : ChatbotUI :=
  match typing_dots self with
  | [] => self
  | _ :: _ =>
      let dimmed := List.map (fun _ => Dimmed) (typing_dots self) in
      let dots :=
        if Nat.ltb (typing_dot_index self) (List.length (typing_dots self))
        then light (typing_dot_index self) dimmed
        else dimmed in
      MkUI (messages self) (messages_layout self)
           (generating_widget self) (generating_message self)
           (typing_timer self) dots
           (Nat.modulo (S (typing_dot_index self)) (List.length (typing_dots self)))
           (message_input self) (chat_worker self) (effects self) (fresh self)
  end.

(** [ChatbotUI.__init__], lines 218-229, once the bot is built: an empty
    log, a layout with its stretch, and the welcome message. *)
Definition init (now : Z) : ChatbotUI :=
  add_message now welcome false
    (MkUI [] [Stretch] None None None [] 0 [] new_worker [] 0).

(** What happens to the window: the user edits the input line; the
    user sends; the signal of the worker arrives; the typing timer
    fires. *)
Inductive Happening : Type :=
| Edit (input : str)
| Send (now now' : Z)
| Respond (response : str) (now : Z)
| Tick.

(** The user leaves [input] in the input line. *)
Definition edit (input : str) (self : ChatbotUI) : ChatbotUI :=
  MkUI (messages self) (messages_layout self)
       (generating_widget self) (generating_message self)
       (typing_timer self) (typing_dots self) (typing_dot_index self)
       input (chat_worker self) (effects self) (fresh self).

Definition happen (self : ChatbotUI) (h : Happening) : Outcome ChatbotUI :=
  match h with
  | Edit input => Return (edit input self)
  | Send now now' => Return (send_message now now' self)
  | Respond response now => handle_bot_response response now self
  | Tick => Return (animate_typing_dots self)
  end.

Fixpoint happen_all (self : ChatbotUI) (hs : list Happening) : Outcome ChatbotUI :=
  match hs with
  | [] => Return self
  | h :: rest =>
      match happen self h with
      | Return self' => happen_all self' rest
      | Raise e => Raise e
      end
  end.

(** The messages an event adds to the log. *)
Definition added (self : ChatbotUI) (h : Happening) : list ChatMessage :=
  match h with
  | Send now _ =>
      if nonempty (strip (message_input self))
      then [MkChatMessage (strip (message_input self)) true now]
      else []
  | Respond response now => [MkChatMessage response false now]
  | Edit _ | Tick => []
  end.

End Methods.

(** The layout shows the messages of the log in their order, then the
    "Generating..." widgets [gens], then the stretch. *)
Definition laid_out (gens : list nat) (self : ChatbotUI) : Prop :=
  messages_layout self
  = List.map MessageWidget (messages self)
    ++ List.map GeneratingWidget gens ++ [Stretch].

(** What every state of the window satisfies. *)
Definition consistent (gens : list nat) (self : ChatbotUI) : Prop :=
  laid_out gens self
  /\ Forall (fun g => (g < fresh self)%nat) gens
  /\ (forall g, generating_widget self = Some g ->
                In g gens /\ typing_timer self <> None).

(** [n] ticks of the typing timer. *)
Fixpoint ticks (n : nat) (self : ChatbotUI) : ChatbotUI :=
  match n with
  | O => self
  | S n' => animate_typing_dots (ticks n' self)
  end.

(** All dots dimmed but the one at [i]. *)
Definition only_lit (i n : nat) : list Colour :=
  light i (List.repeat Dimmed n).

End UI.

(* ================================================================== *)
(** ** Facts about [str] *)
(* ================================================================== *)

Module PyStrFacts.

Lemma lstrip_split (s : str) :
  exists a, s = a ++ lstrip s /\ all_space a = true.
Proof.
  induction s as [|c s [a [Hs Ha]]]; simpl.
  - exists []. split; reflexivity.
  - destruct (is_space c) eqn:Hc.
    + exists (c :: a). simpl. rewrite Hc, Ha. split; [f_equal; exact Hs | reflexivity].
    + exists []. split; reflexivity.
Qed.

Lemma lstrip_head (s : str) c t : lstrip s = c :: t -> is_space c = false.
Proof.
  induction s as [|d s IH]; simpl; [discriminate|].
  destruct (is_space d) eqn:Hd; [exact IH|].
  intros H. injection H as -> _. exact Hd.
Qed.

Lemma lstrip_nil (s : str) : lstrip s = [] <-> all_space s = true.
Proof.
  induction s as [|c s IH]; simpl; [tauto|].
  destruct (is_space c); simpl; [exact IH|].
  split; discriminate.
Qed.

Lemma lstrip_suffix_last (s : str) t c :
  lstrip s = t ++ [c] -> exists u, s = u ++ [c].
Proof.
  intros H. destruct (lstrip_split s) as [a [Hs _]].
  exists (a ++ t). rewrite Hs at 1. rewrite H. apply app_assoc.
Qed.

Lemma all_space_app (a b : str) :
  all_space (a ++ b) = all_space a && all_space b.
Proof. apply forallb_app. Qed.

Lemma all_space_rev (s : str) : all_space (rev s) = all_space s.
Proof.
  induction s as [|c s IH]; simpl; [reflexivity|].
  rewrite all_space_app, IH. simpl. rewrite andb_true_r. apply andb_comm.
Qed.

Lemma rstrip_split (s : str) :
  exists b, s = rstrip s ++ b /\ all_space b = true.
Proof.
  unfold rstrip. destruct (lstrip_split (rev s)) as [a [Hs Ha]].
  exists (rev a). split.
  - rewrite <- rev_app_distr, <- Hs. symmetry. apply rev_involutive.
  - rewrite all_space_rev. exact Ha.
Qed.

Lemma rstrip_last (s : str) t c : rstrip s = t ++ [c] -> is_space c = false.
Proof.
  unfold rstrip. intros H.
  apply (f_equal (@rev N)) in H.
  rewrite rev_involutive, rev_app_distr in H. simpl in H.
  exact (lstrip_head _ _ _ H).
Qed.

(** [s.strip()] is [s] without a run of white space at each end, and it
    neither starts nor ends with white space. *)
Lemma strip_spec (s : str) :
  (exists a b, s = a ++ strip s ++ b /\ all_space a = true /\ all_space b = true)
  /\ (forall c t, strip s = c :: t -> is_space c = false)
  /\ (forall t c, strip s = t ++ [c] -> is_space c = false).
Proof.
  unfold strip. repeat split.
  - destruct (rstrip_split s) as [b [Hs Hb]].
    destruct (lstrip_split (rstrip s)) as [a [Hr Ha]].
    exists a, b. repeat split; try assumption.
    rewrite app_assoc, <- Hr. exact Hs.
  - intros c t. apply lstrip_head.
  - intros t c H. destruct (lstrip_suffix_last _ _ _ H) as [u Hu].
    exact (rstrip_last _ _ _ Hu).
Qed.

(** [not s.strip()] holds exactly for a [str] of white space only. *)
Lemma strip_nil (s : str) : strip s = [] <-> all_space s = true.
Proof.
  unfold strip. rewrite lstrip_nil.
  destruct (rstrip_split s) as [b [Hs Hb]].
  rewrite Hs at 2. rewrite all_space_app, Hb, andb_true_r. tauto.
Qed.

Lemma nonempty_false (s : str) : nonempty s = false <-> s = [].
Proof. destruct s; simpl; split; congruence. Qed.

(** A [str] that already has no white space at its ends is left as it
    is. *)
Lemma lstrip_id (s : str) :
  (forall c t, s = c :: t -> is_space c = false) -> lstrip s = s.
Proof.
  destruct s as [|c t]; simpl; [reflexivity|].
  intros H. rewrite (H c t eq_refl). reflexivity.
Qed.

Lemma is_prefix_spec (p s : str) :
  is_prefix p s = true <-> exists b, s = p ++ b.
Proof.
  revert s. induction p as [|x p IH]; intros s; simpl.
  - split; [exists s; reflexivity | reflexivity].
  - destruct s as [|y s].
    + split; [discriminate | intros [b Hb]; discriminate].
    + rewrite andb_true_iff, N.eqb_eq, IH. split.
      * intros [-> [b ->]]. exists b. reflexivity.
      * intros [b Hb]. injection Hb as -> ->. split; [reflexivity | exists b; reflexivity].
Qed.

(** [p in s] holds exactly when [p] occurs in [s]. *)
Lemma is_substring_spec (p s : str) :
  is_substring p s = true <-> exists a b, s = a ++ p ++ b.
Proof.
  induction s as [|y s IH].
  - simpl. rewrite orb_false_r, is_prefix_spec. split.
    + intros [b Hb]. exists [], b. exact Hb.
    + intros [a [b Hb]]. destruct a; [exists b; exact Hb | discriminate].
  - cbn [is_substring]. rewrite orb_true_iff, is_prefix_spec, IH. split.
    + intros [[b Hb] | [a [b Hb]]].
      * exists [], b. exact Hb.
      * exists (y :: a), b. simpl. f_equal. exact Hb.
    + intros [a [b Hb]]. destruct a as [|z a].
      * left. exists b. exact Hb.
      * right. injection Hb as _ Hb. exists a, b. exact Hb.
Qed.

End PyStrFacts.
Import PyStrFacts.

(* ================================================================== *)
(** ** Reasoning about the monad *)
(* ================================================================== *)

Section Appends.

Context {A B : Type}.
Variable ok : Event -> bool.

Lemma appends_ret (a : A) : appends ok (ret a).
Proof. intros w. exists []. rewrite app_nil_r. split; reflexivity. Qed.

Lemma appends_raise (e : Exn) : appends ok (@raise A e).
Proof. intros w. exists []. rewrite app_nil_r. split; reflexivity. Qed.

Lemma appends_lift (o : Outcome A) : appends ok (lift o).
Proof. intros w. exists []. rewrite app_nil_r. split; reflexivity. Qed.

Lemma appends_call (ev : Event) (t : Timed A) :
  ok ev = true -> appends ok (call ev t).
Proof. intros H w. exists [ev]. simpl. rewrite H. split; reflexivity. Qed.

Lemma appends_bind (c : M A) (k : A -> M B) :
  appends ok c -> (forall a, appends ok (k a)) -> appends ok (bind c k).
Proof.
  intros Hc Hk w. unfold bind.
  destruct (Hc w) as [e1 [H1 O1]].
  destruct (c w) as [w1 [a|e]]; simpl in H1.
  - destruct (Hk a w1) as [e2 [H2 O2]].
    exists (e1 ++ e2). rewrite H2, H1, app_assoc, forallb_app, O1, O2.
    split; reflexivity.
  - exists e1. split; assumption.
Qed.

Lemma appends_try (c : M A) (h : Exn -> M A) :
  appends ok c -> (forall e, appends ok (h e)) -> appends ok (try_except c h).
Proof.
  intros Hc Hh w. unfold try_except.
  destruct (Hc w) as [e1 [H1 O1]].
  destruct (c w) as [w1 [a|e]]; simpl in H1.
  - exists e1. split; assumption.
  - destruct (Hh e w1) as [e2 [H2 O2]].
    exists (e1 ++ e2). rewrite H2, H1, app_assoc, forallb_app, O1, O2.
    split; reflexivity.
Qed.

(** A [try] whose handlers all return lets no exception out. *)
Lemma total_try (c : M A) (h : Exn -> M A) :
  (forall e, total (h e)) -> total (try_except c h).
Proof.
  intros Hh w. unfold try_except, result_of.
  destruct (c w) as [w1 [a|e]].
  - exists a. reflexivity.
  - apply Hh.
Qed.

End Appends.

Lemma appends_print ok (d : Diagnostic) :
  ok (EvPrint d) = true -> appends ok (print d).
Proof. intros H w. exists [EvPrint d]. simpl. rewrite H. split; reflexivity. Qed.

Lemma appends_if {A} ok (b : bool) (c1 c2 : M A) :
  appends ok c1 -> appends ok c2 -> appends ok (if b then c1 else c2).
Proof. destruct b; auto. Qed.

Ltac appends_auto :=
  repeat first
    [ apply appends_try | apply appends_bind | apply appends_if
    | apply appends_ret | apply appends_raise | apply appends_lift
    | apply appends_print; reflexivity
    | apply appends_call; first [reflexivity | apply Z.eqb_refl]
    | match goal with |- forall _, _ => intro end
    | match goal with |- appends _ (match ?x with _ => _ end) => destruct x end ].

(** Counting over what a computation appended. *)
Lemma appended_none (ok p : Event -> bool) (evs : list Event) :
  (forall ev, ok ev = true -> p ev = false) ->
  forallb ok evs = true -> filter p evs = [].
Proof.
  intros H. induction evs as [|ev evs IH]; simpl; [reflexivity|].
  rewrite andb_true_iff. intros [Hev Hrest].
  rewrite (H ev Hev). exact (IH Hrest).
Qed.

Lemma emissions_app (t u : list Event) :
  emissions (t ++ u) = emissions t ++ emissions u.
Proof. apply flat_map_app. Qed.

Lemma emissions_none (evs : list Event) :
  forallb is_not_emit evs = true -> emissions evs = [].
Proof.
  induction evs as [|ev evs IH]; simpl; [reflexivity|].
  rewrite andb_true_iff. intros [Hev Hrest].
  rewrite (IH Hrest). destruct ev; try reflexivity; discriminate.
Qed.

(* ================================================================== *)
(** ** Facts about [ChatBot] *)
(* ================================================================== *)

Ltac py_unfold :=
  unfold latency, dispatch, transports, process_path, get_response, get_response_handler,
    structured_attempt, process_attempt, check_model, test_ollama,
    subprocess_run, import_requests, requests_post, response_json,
    subprocess_Popen, process_communicate,
    try_except, bind, ret, raise, lift, call, print,
    result_of, events_of, elapsed_of in *.

Section ChatBotFacts.

Variable env : Env.
Variable self : ChatBot.

(** The listing command of [check_model]. *)
Let listing : Timed CompletedProcess :=
  env_run env [lit "ollama"; lit "list"] 10.

(** What [check_model] returns, by the outcome of the listing. *)
Lemma check_model_result (w : World) :
  result_of (check_model env self w) =
  Return match outcome listing with
         | Return result =>
             if cp_returncode result =? 0
             then PyBool (is_substring (model_name self) (cp_stdout result))
             else PyNone
         | Raise _ => PyBool false
         end.
Proof.
  subst listing. py_unfold. cbn.
  destruct (outcome (env_run env _ 10)) as [result|e]; [|reflexivity].
  destruct (cp_returncode result =? 0); [|reflexivity].
  destruct (is_substring _ _); reflexivity.
Qed.

Lemma check_model_total : total (check_model env self).
Proof. intros w. rewrite check_model_result. eexists. reflexivity. Qed.

Lemma check_model_appends : appends is_check_event (check_model env self).
Proof. unfold check_model, subprocess_run. appends_auto. Qed.

(** The check is truthy exactly when the listing succeeded with status
    0 and its output contains the model name. *)
Lemma model_known_iff :
  model_known env self = true <->
  exists result,
    outcome listing = Return result
    /\ cp_returncode result = 0
    /\ is_substring (model_name self) (cp_stdout result) = true.
Proof.
  unfold model_known. rewrite check_model_result.
  destruct (outcome listing) as [result|e].
  - destruct (Z.eqb_spec (cp_returncode result) 0) as [H0|H0]; simpl.
    + split.
      * intros H. exists result. auto.
      * intros [r [Hr [_ Hs]]]. injection Hr as <-. exact Hs.
    + split; [discriminate|].
      intros [r [Hr [Hc _]]]. injection Hr as <-. contradiction.
  - simpl. split; [discriminate|]. intros [r [Hr _]]. discriminate.
Qed.

(** The worlds [check_model] can leave behind, as seen from a fresh
    one: some check events, and the result read by [model_known]. *)
Lemma check_model_fresh :
  exists w1 v,
    check_model env self world0 = (w1, Return v)
    /\ truthy v = model_known env self
    /\ clock w1 = took listing
    /\ forallb is_check_event (trace w1) = true.
Proof.
  destruct (check_model_appends world0) as [evs [Ht Hok]].
  unfold model_known.
  destruct (check_model_total world0) as [v Hv]. rewrite Hv.
  assert (Hclock : clock (fst (check_model env self world0)) = took listing).
  { subst listing. py_unfold. cbn.
    destruct (outcome (env_run env _ 10)) as [result|e]; [|reflexivity].
    destruct (cp_returncode result =? 0); [|reflexivity].
    destruct (is_substring _ _); reflexivity. }
  destruct (check_model env self world0) as [w1 o]. simpl in *.
  exists w1, v. subst o. rewrite Ht. auto.
Qed.

Lemma handler_total (e : Exn) : total (get_response_handler self e).
Proof.
  intros w. unfold get_response_handler, ret, result_of.
  destruct (is_TimeoutExpired e); [eexists; reflexivity|].
  destruct (is_FileNotFoundError e); eexists; reflexivity.
Qed.

Lemma get_response_total (prompt : str) : total (get_response env self prompt).
Proof. unfold get_response. apply total_try. exact handler_total. Qed.

Lemma get_response_appends (prompt : str) :
  appends is_not_emit (get_response env self prompt).
Proof.
  unfold get_response, get_response_handler, check_model, structured_attempt,
    process_attempt, subprocess_run, import_requests, requests_post,
    response_json, subprocess_Popen, process_communicate.
  appends_auto.
Qed.

(** [ChatWorker.run] emits [response_ready] exactly once, with what
    [get_response] returned. *)
Lemma run_emits_once (message : str) (w : World) :
  exists response,
    result_of (get_response env self message (after_sleep w)) = Return response
    /\ emissions (trace (fst (run env self message w)))
       = emissions (trace w) ++ [response].
Proof.
  unfold after_sleep.
  remember (fst (call (EvSleep 500) (MkTimed 500 (Return tt)) w)) as w1 eqn:Hw1.
  assert (Hrun : run env self message w
                 = bind (get_response env self message)
                     (fun response => call (EvEmit response) (MkTimed 0 (Return tt))) w1)
    by (subst w1; reflexivity).
  destruct (get_response_total message w1) as [response Hr].
  destruct (get_response_appends message w1) as [evs [Ht Hok]].
  exists response. split; [exact Hr|].
  rewrite Hrun. unfold bind, result_of in *.
  destruct (get_response env self message w1) as [w2 o]. simpl in *. subst o.
  unfold call. simpl. rewrite Ht, Hw1. simpl.
  rewrite !emissions_app, (emissions_none evs Hok). simpl.
  rewrite !app_nil_r. reflexivity.
Qed.

End ChatBotFacts.

(* ================================================================== *)
(** ** The dispatch: [ChatBot.get_response] *)
(* ================================================================== *)

Lemma filter_check_events (p : Event -> bool) (t : list Event) :
  (forall ev, is_check_event ev = true -> p ev = false) ->
  forallb is_check_event t = true ->
  List.length (filter p t) = 0%nat.
Proof. intros Hp Ht. rewrite (appended_none _ _ _ Hp Ht). reflexivity. Qed.

Lemma check_not_transport ev :
  is_check_event ev = true ->
  (is_post ev || is_popen ev || is_communicate ev) = false.
Proof. destruct ev; simpl; congruence. Qed.

Lemma check_not_post ev : is_check_event ev = true -> is_post ev = false.
Proof. destruct ev; simpl; congruence. Qed.

Lemma check_not_popen ev : is_check_event ev = true -> is_popen ev = false.
Proof. destruct ev; simpl; congruence. Qed.

Ltac count_events :=
  unfold structured_calls, process_starts, transport_calls;
  rewrite ?filter_app, ?length_app; cbn [filter is_post is_popen is_communicate orb List.length];
  rewrite ?filter_check_events
    by (assumption || apply check_not_post || apply check_not_popen
        || apply check_not_transport);
  try reflexivity.

(** C2: when the availability check reports the model as not known
    ([check_model()] is falsy), [get_response] returns the
    model-unavailable message at once: the dispatch leaves the world as
    the check left it, and no call to either transport was made. *)
Theorem unknown_model_no_transport (env : Env) (self : ChatBot) (prompt : str) :
  model_known env self = false ->
  result_of (dispatch env self prompt) = Return (msg_unavailable self)
  /\ fst (dispatch env self prompt) = fst (check_model env self world0)
  /\ transport_calls (events_of (dispatch env self prompt)) = 0%nat.
Proof.
  intros Hunknown.
  assert (Hw : fst (dispatch env self prompt) = fst (check_model env self world0)
               /\ result_of (dispatch env self prompt) = Return (msg_unavailable self)).
  { destruct (check_model_fresh env self) as [w1 [v [Hc [Hv _]]]].
    unfold dispatch, get_response, try_except, bind.
    rewrite Hc, Hv, Hunknown. split; reflexivity. }
  destruct Hw as [Hw Hr]. repeat split; [exact Hr | exact Hw |].
  unfold events_of. rewrite Hw.
  destruct (check_model_fresh env self) as [w1 [v [Hc [_ [_ Hev]]]]].
  rewrite Hc. simpl. count_events.
Qed.

Lemma unknown_model_no_transport_witness :
  model_known env_unknown_model default_chatbot = false
  /\ result_of (dispatch env_unknown_model default_chatbot (lit "hi"))
     = Return (msg_unavailable default_chatbot)
  /\ transport_calls (events_of (dispatch env_unknown_model default_chatbot (lit "hi")))
     = 0%nat.
Proof.
  split; [reflexivity|].
  pose proof (unknown_model_no_transport env_unknown_model default_chatbot (lit "hi")
                eq_refl) as [Hr [_ Hn]].
  split; assumption.
Defined.

Section DispatchFacts.

Variable env : Env.
Variable self : ChatBot.
Variable prompt : str.

Lemma dispatch_known :
  model_known env self = true ->
  exists w1,
    forallb is_check_event (trace w1) = true
    /\ dispatch env self prompt = transports env self prompt w1.
Proof.
  intros Hknown.
  destruct (check_model_fresh env self) as [w1 [v [Hc [Hv [_ Hev]]]]].
  exists w1. split; [exact Hev|].
  unfold transports. unfold dispatch, get_response, try_except.
  unfold bind at 1 3. rewrite Hc, Hv, Hknown. reflexivity.
Qed.

(** The structured attempt never raises. *)
Lemma structured_attempt_total : total (structured_attempt env self prompt).
Proof.
  unfold structured_attempt. apply total_try. intros e w.
  destruct (is_ImportError e); eexists; reflexivity.
Qed.

Lemma structured_attempt_appends :
  appends is_structured_event (structured_attempt env self prompt).
Proof.
  unfold structured_attempt, import_requests, requests_post, response_json.
  appends_auto.
Qed.

(** The result does not depend on the world the attempt starts in. *)
Lemma structured_attempt_result_indep (w w' : World) :
  result_of (structured_attempt env self prompt w)
  = result_of (structured_attempt env self prompt w').
Proof.
  py_unfold. cbn.
  destruct (env_import_requests env) as [[]|e]; cbn.
  2: destruct (is_ImportError e); reflexivity.
  destruct (outcome (env_post env _ _ _)) as [response|e]; cbn.
  2: destruct (is_ImportError e); reflexivity.
  destruct (status_code response =? 200); cbn; [|reflexivity].
  destruct (json response) as [result|e]; cbn.
  2: destruct (is_ImportError e); reflexivity.
  destruct (py_contains _ result) as [[|]|e]; cbn.
  - destruct (response_text result) as [t|e]; cbn; [reflexivity|].
    destruct (is_ImportError e); reflexivity.
  - reflexivity.
  - destruct (is_ImportError e); reflexivity.
Qed.

Lemma structured_import_fails (e : Exn) (w : World) :
  env_import_requests env = Raise e ->
  exists evs,
    structured_attempt env self prompt w
    = (MkWorld (clock w + 0) (trace w ++ evs), Return None)
    /\ forallb is_import_event evs = true.
Proof.
  intros Himport. py_unfold. cbn. rewrite Himport.
  destruct (is_ImportError e); cbn; rewrite <- app_assoc;
    eexists; (split; [reflexivity|reflexivity]).
Qed.

Lemma structured_failure_falls_through (w : World) :
  env_import_requests env = Return tt ->
  structured_failure env self prompt ->
  result_of (structured_attempt env self prompt w) = Return None.
Proof.
  intros Himport Hfail. unfold posted in *.
  py_unfold. cbn. rewrite Himport. cbn.
  destruct Hfail as [e Hp | response Hp Hs | response e Hp Hs Hj
                    | response result e Hp Hs Hj Hshape];
    unfold posted in Hp; rewrite Hp; cbn.
  - destruct (is_ImportError e); reflexivity.
  - apply Z.eqb_neq in Hs. rewrite Hs. reflexivity.
  - rewrite Hs, Hj. cbn. destruct (is_ImportError e); reflexivity.
  - rewrite Hs, Hj. cbn. destruct Hshape as [Hc | [Hc Ht]]; rewrite Hc; cbn.
    + destruct (is_ImportError e); reflexivity.
    + rewrite Ht. cbn. destruct (is_ImportError e); reflexivity.
Qed.

Lemma structured_missing_field (w : World) :
  env_import_requests env = Return tt ->
  missing_field env self prompt ->
  result_of (structured_attempt env self prompt w)
  = Return (Some msg_unexpected_format).
Proof.
  intros Himport [response [result [Hp [Hs [Hj Hc]]]]]. unfold posted in Hp.
  py_unfold. cbn. rewrite Himport. cbn. rewrite Hp. cbn.
  rewrite Hs, Hj. cbn. rewrite Hc. reflexivity.
Qed.

Lemma structured_success (w : World) response d t :
  env_import_requests env = Return tt ->
  outcome (posted env self prompt) = Return response ->
  status_code response = 200 ->
  json response = Return (PyDict d) ->
  dict_get (lit "response") d = Some (PyString t) ->
  result_of (structured_attempt env self prompt w) = Return (Some (strip t)).
Proof.
  intros Himport Hp Hs Hj Hd. unfold posted in Hp.
  py_unfold. cbn. rewrite Himport. cbn. rewrite Hp. cbn.
  rewrite Hs, Hj. cbn. unfold response_text. cbn. rewrite Hd. reflexivity.
Qed.

(** The process transport starts the process exactly once. *)
Lemma process_path_events (w : World) :
  exists rest,
    trace (fst (process_path env self prompt w))
    = trace w ++ EvPopen [lit "ollama"; lit "run"; model_name self] :: rest
    /\ filter is_popen rest = [] /\ filter is_post rest = [].
Proof.
  py_unfold. cbn.
  destruct (outcome (env_popen env _)) as [[]|e]; cbn.
  - destruct (outcome (env_communicate env _ _)) as [r|e]; cbn.
    + rewrite <- app_assoc. eexists. split; [reflexivity|]. split; reflexivity.
    + destruct (is_TimeoutExpired e); [|destruct (is_FileNotFoundError e)];
        cbn; rewrite <- app_assoc; eexists; (split; [reflexivity|]);
        split; reflexivity.
  - destruct (is_TimeoutExpired e); [|destruct (is_FileNotFoundError e)];
      cbn; eexists; (split; [reflexivity|]); split; reflexivity.
Qed.

Lemma process_path_result_indep (w w' : World) :
  result_of (process_path env self prompt w)
  = result_of (process_path env self prompt w').
Proof.
  py_unfold. cbn.
  destruct (outcome (env_popen env _)) as [[]|e]; cbn.
  - destruct (outcome (env_communicate env _ _)) as [r|e]; cbn; [reflexivity|].
    destruct (is_TimeoutExpired e); [|destruct (is_FileNotFoundError e)]; reflexivity.
  - destruct (is_TimeoutExpired e); [|destruct (is_FileNotFoundError e)]; reflexivity.
Qed.

(** Once the structured attempt has fallen through, the rest of the
    dispatch is the process transport. *)
Lemma transports_fall_through (w1 : World) :
  result_of (structured_attempt env self prompt w1) = Return None ->
  transports env self prompt w1
  = process_path env self prompt (fst (structured_attempt env self prompt w1)).
Proof.
  unfold transports. unfold process_path, try_except, result_of.
  unfold bind at 1. destruct (structured_attempt env self prompt w1) as [w2 o].
  simpl. intros ->. reflexivity.
Qed.

(** When the structured attempt returns a value, so does the dispatch,
    and nothing more happens. *)
Lemma transports_return (w1 : World) (s : str) :
  result_of (structured_attempt env self prompt w1) = Return (Some s) ->
  transports env self prompt w1 = (fst (structured_attempt env self prompt w1), Return s).
Proof.
  unfold transports. unfold try_except, result_of.
  unfold bind at 1. destruct (structured_attempt env self prompt w1) as [w2 o].
  simpl. intros ->. reflexivity.
Qed.

End DispatchFacts.

Lemma structured_not_popen ev : is_structured_event ev = true -> is_popen ev = false.
Proof. destruct ev; simpl; congruence. Qed.

Lemma import_not_post ev : is_import_event ev = true -> is_post ev = false.
Proof. destruct ev; simpl; congruence. Qed.

(** A dispatch whose structured attempt falls through starts the
    process transport exactly once and returns what it gives. *)
Lemma dispatch_falls_through (env : Env) (self : ChatBot) (prompt : str) :
  model_known env self = true ->
  (forall w, result_of (structured_attempt env self prompt w) = Return None) ->
  process_starts (events_of (dispatch env self prompt)) = 1%nat
  /\ result_of (dispatch env self prompt)
     = result_of (process_path env self prompt world0).
Proof.
  intros Hknown Hnone.
  destruct (dispatch_known env self prompt Hknown) as [w1 [Hev Hd]].
  rewrite Hd, (transports_fall_through env self prompt w1 (Hnone w1)).
  destruct (structured_attempt_appends env self prompt w1) as [evs [Ht Hok]].
  split.
  - unfold events_of.
    destruct (process_path_events env self prompt
                (fst (structured_attempt env self prompt w1)))
      as [rest [Hp [Hrest _]]].
    rewrite Hp, Ht. unfold process_starts.
    rewrite !filter_app. cbn [filter is_popen].
    rewrite Hrest, (appended_none _ _ _ check_not_popen Hev),
      (appended_none _ _ _ structured_not_popen Hok).
    reflexivity.
  - apply process_path_result_indep.
Qed.

(** A dispatch whose structured attempt returns a value returns that
    value and never starts the process transport. *)
Lemma dispatch_returns (env : Env) (self : ChatBot) (prompt s : str) :
  model_known env self = true ->
  (forall w, result_of (structured_attempt env self prompt w) = Return (Some s)) ->
  result_of (dispatch env self prompt) = Return s
  /\ process_starts (events_of (dispatch env self prompt)) = 0%nat.
Proof.
  intros Hknown Hsome.
  destruct (dispatch_known env self prompt Hknown) as [w1 [Hev Hd]].
  rewrite Hd, (transports_return env self prompt w1 s (Hsome w1)).
  split; [reflexivity|].
  destruct (structured_attempt_appends env self prompt w1) as [evs [Ht Hok]].
  unfold events_of, process_starts. cbn [fst]. rewrite Ht, filter_app.
  rewrite (appended_none _ _ _ check_not_popen Hev),
    (appended_none _ _ _ structured_not_popen Hok).
  reflexivity.
Qed.

(** C1, as the code has it: when the model is known and the structured
    transport fails by a connection failure, a status other than 200, a
    payload that [response.json()] rejects, or a payload whose response
    field cannot be read as text, the process transport is started
    exactly once and the dispatch returns what the process path gives.
    A payload with status 200 in which the field is missing is not such
    a failure: the dispatch returns the unexpected-format message and
    the process transport is not started. *)
Theorem structured_failure_fallback (env : Env) (self : ChatBot) (prompt : str) :
  model_known env self = true ->
  env_import_requests env = Return tt ->
  (structured_failure env self prompt ->
     process_starts (events_of (dispatch env self prompt)) = 1%nat
     /\ result_of (dispatch env self prompt)
        = result_of (process_path env self prompt world0))
  /\ (missing_field env self prompt ->
        process_starts (events_of (dispatch env self prompt)) = 0%nat
        /\ result_of (dispatch env self prompt) = Return msg_unexpected_format).
Proof.
  intros Hknown Himport. split.
  - intros Hfail. apply dispatch_falls_through; [exact Hknown|].
    intros w. apply structured_failure_falls_through; assumption.
  - intros Hmissing.
    destruct (dispatch_returns env self prompt msg_unexpected_format Hknown) as [Hr Hn].
    + intros w. apply structured_missing_field; assumption.
    + split; assumption.
Qed.

Lemma unreachable_is_failure :
  structured_failure env_unreachable default_chatbot (lit "hi").
Proof. eapply ConnectionFailure. reflexivity. Qed.

Lemma structured_failure_fallback_witness :
  process_starts (events_of (dispatch env_unreachable default_chatbot (lit "hi"))) = 1%nat
  /\ result_of (dispatch env_unreachable default_chatbot (lit "hi"))
     = Return (lit "Hi there").
Proof.
  exact (proj1 (structured_failure_fallback env_unreachable default_chatbot (lit "hi")
                  eq_refl eq_refl) unreachable_is_failure).
Defined.

(** C1 as stated fails: the model is known, the API answers 200 with an
    object that has no response field, and the dispatch returns the
    unexpected-format message without starting the process transport. *)
Lemma missing_field_no_fallback :
  model_known env_no_field default_chatbot = true
  /\ missing_field env_no_field default_chatbot (lit "hi")
  /\ process_starts (events_of (dispatch env_no_field default_chatbot (lit "hi"))) = 0%nat
  /\ result_of (dispatch env_no_field default_chatbot (lit "hi"))
     = Return msg_unexpected_format.
Proof.
  split; [reflexivity|]. split; [|split; reflexivity].
  eexists _, _. repeat split; reflexivity.
Qed.

(** C4, as the code has it: when the model is known and the structured
    transport answers with status 200, the one status line 70 accepts,
    and a payload whose response field is a text, the dispatch returns
    that text stripped of the white space at its two ends, and the
    process transport is never started. *)
Theorem structured_success_no_fallback
    (env : Env) (self : ChatBot) (prompt : str)
    (response : Response) (d : list (str * PyVal)) (t : str) :
  model_known env self = true ->
  env_import_requests env = Return tt ->
  outcome (posted env self prompt) = Return response ->
  status_code response = 200 ->
  json response = Return (PyDict d) ->
  dict_get (lit "response") d = Some (PyString t) ->
  result_of (dispatch env self prompt) = Return (strip t)
  /\ process_starts (events_of (dispatch env self prompt)) = 0%nat.
Proof.
  intros Hknown Himport Hp Hs Hj Hd.
  apply dispatch_returns; [exact Hknown|].
  intros w. exact (structured_success env self prompt w response d t Himport Hp Hs Hj Hd).
Qed.

Lemma structured_success_no_fallback_witness :
  result_of (dispatch env_hello_padded default_chatbot (lit "hi"))
  = Return (strip (lit "  Hello! " ++ nl))
  /\ process_starts (events_of (dispatch env_hello_padded default_chatbot (lit "hi")))
     = 0%nat.
Proof.
  exact (structured_success_no_fallback env_hello_padded default_chatbot (lit "hi")
           (MkResponse 200 []
              (Return (PyDict [(lit "response", PyString (lit "  Hello! " ++ nl))])))
           [(lit "response", PyString (lit "  Hello! " ++ nl))] (lit "  Hello! " ++ nl)
           eq_refl eq_refl eq_refl eq_refl eq_refl eq_refl).
Defined.

(** C4 as stated fails for a success status other than 200: the model
    is known, the API answers 201 with a payload whose response field is
    the text "Hello!", and the dispatch does not return that text; it
    takes the answer for an error of the API, starts the process
    transport, and returns what the process printed. *)
Lemma created_status_falls_back :
  model_known env_created default_chatbot = true
  /\ env_import_requests env_created = Return tt
  /\ (exists response,
        outcome (posted env_created default_chatbot (lit "hi")) = Return response
        /\ is_success_status (status_code response) = true
        /\ json response = Return (PyDict [(lit "response", PyString (lit "Hello!"))]))
  /\ result_of (dispatch env_created default_chatbot (lit "hi"))
     = Return (lit "Hi there")
  /\ result_of (dispatch env_created default_chatbot (lit "hi"))
     <> Return (strip (lit "Hello!"))
  /\ process_starts (events_of (dispatch env_created default_chatbot (lit "hi")))
     = 1%nat.
Proof.
  split; [reflexivity|]. split; [reflexivity|]. split.
  - eexists. split; [reflexivity|]. split; reflexivity.
  - split; [reflexivity|]. split; [|reflexivity].
    vm_compute. discriminate.
Qed.

(** C10: when the model is known and [import requests] fails, the
    structured transport is not called at all, the failure of the import
    is not what the dispatch returns, and the process transport is
    started once: the dispatch returns what the process path gives. *)
Theorem no_requests_skips_structured
    (env : Env) (self : ChatBot) (prompt : str) (e : Exn) :
  model_known env self = true ->
  env_import_requests env = Raise e ->
  structured_calls (events_of (dispatch env self prompt)) = 0%nat
  /\ process_starts (events_of (dispatch env self prompt)) = 1%nat
  /\ result_of (dispatch env self prompt)
     = result_of (process_path env self prompt world0).
Proof.
  intros Hknown Himport.
  assert (Hnone : forall w, result_of (structured_attempt env self prompt w) = Return None).
  { intros w. destruct (structured_import_fails env self prompt e w Himport) as [evs [Hs _]].
    rewrite Hs. reflexivity. }
  split; [|exact (dispatch_falls_through env self prompt Hknown Hnone)].
  destruct (dispatch_known env self prompt Hknown) as [w1 [Hev Hd]].
  rewrite Hd, (transports_fall_through env self prompt w1 (Hnone w1)).
  destruct (structured_import_fails env self prompt e w1 Himport) as [evs [Hs Hok]].
  rewrite Hs. cbn [fst].
  destruct (process_path_events env self prompt
              (MkWorld (clock w1 + 0) (trace w1 ++ evs))) as [rest [Hp [_ Hrest]]].
  unfold events_of, structured_calls. rewrite Hp. cbn [trace].
  rewrite !filter_app. cbn [filter is_post].
  rewrite Hrest, (appended_none _ _ _ check_not_post Hev),
    (appended_none _ _ _ import_not_post Hok).
  reflexivity.
Qed.

Lemma no_requests_skips_structured_witness :
  structured_calls (events_of (dispatch env_no_requests default_chatbot (lit "hi"))) = 0%nat
  /\ process_starts (events_of (dispatch env_no_requests default_chatbot (lit "hi"))) = 1%nat
  /\ result_of (dispatch env_no_requests default_chatbot (lit "hi"))
     = Return (lit "Hi there").
Proof.
  exact (no_requests_skips_structured env_no_requests default_chatbot (lit "hi")
           (MkExn ImportError (lit "No module named 'requests'")) eq_refl eq_refl).
Defined.

(** C3, evaluated where the code breaks it: the model is known and the
    API answers 200 with an empty response field; [get_response]
    returns the empty text itself, not the empty-response message that
    the process path returns for an empty output. *)
Theorem empty_field_returned_as_is :
  result_of (dispatch env_empty_field default_chatbot (lit "hi")) = Return []
  /\ [] <> msg_empty_response
  /\ process_result (MkCommunicated [] [] 0) = msg_empty_response.
Proof.
  split; [reflexivity|]. split; [discriminate | reflexivity].
Qed.

(** C5: a process attempt that starts and whose [communicate] returns
    gives a result decided by the exit status and the output: with a
    non-zero status, the process-error message carrying the stripped
    stderr (or "Unknown error" when stderr is empty); with status 0 and
    an output of white space only, the empty-response message; with
    status 0 and any other output, the stripped output, which is not
    empty. *)
Theorem process_result_by_status
    (env : Env) (self : ChatBot) (prompt : str) (r : Communicated) (w : World) :
  outcome (env_popen env [lit "ollama"; lit "run"; model_name self]) = Return tt ->
  outcome (env_communicate env (prompt ++ nl) (timeout_seconds self)) = Return r ->
  result_of (process_path env self prompt w) = Return (process_result r)
  /\ (returncode r <> 0 ->
        process_result r
        = msg_process_error
            (if nonempty (stderr r) then strip (stderr r) else lit "Unknown error"))
  /\ (returncode r = 0 -> all_space (stdout r) = true ->
        process_result r = msg_empty_response)
  /\ (returncode r = 0 -> all_space (stdout r) = false ->
        process_result r = strip (stdout r) /\ strip (stdout r) <> []).
Proof.
  intros Hpopen Hcomm. split; [|split; [|split]].
  - py_unfold. cbn. rewrite Hpopen. cbn. rewrite Hcomm. reflexivity.
  - intros Hrc. unfold process_result.
    apply Z.eqb_neq in Hrc. rewrite Hrc. reflexivity.
  - intros Hrc Hspace. unfold process_result. rewrite Hrc. cbn.
    apply strip_nil in Hspace. rewrite Hspace. reflexivity.
  - intros Hrc Hspace. unfold process_result. rewrite Hrc. cbn.
    assert (Hne : strip (stdout r) <> []).
    { intros Hnil. apply strip_nil in Hnil. congruence. }
    split; [|exact Hne].
    destruct (strip (stdout r)); [contradiction | reflexivity].
Qed.

Lemma process_result_by_status_witness :
  result_of (process_path env_unreachable default_chatbot (lit "hi") world0)
  = Return (lit "Hi there").
Proof.
  exact (proj1 (process_result_by_status env_unreachable default_chatbot (lit "hi")
                  (MkCommunicated (lit "Hi there") [] 0) world0 eq_refl eq_refl)).
Defined.

(** The three kinds of failure the handlers tell apart. *)
Lemma process_path_missing_binary
    (env : Env) (self : ChatBot) (prompt : str) (e : Exn) (w : World) :
  outcome (env_popen env [lit "ollama"; lit "run"; model_name self]) = Raise e ->
  exn_class e = FileNotFoundError ->
  result_of (process_path env self prompt w) = Return msg_not_installed.
Proof.
  intros Hpopen Hclass. py_unfold. cbn. rewrite Hpopen. cbn.
  unfold is_TimeoutExpired, is_FileNotFoundError. rewrite Hclass. reflexivity.
Qed.

Lemma process_path_timeout
    (env : Env) (self : ChatBot) (prompt : str) (e : Exn) (w : World) :
  outcome (env_popen env [lit "ollama"; lit "run"; model_name self]) = Return tt ->
  outcome (env_communicate env (prompt ++ nl) (timeout_seconds self)) = Raise e ->
  exn_class e = TimeoutExpired ->
  result_of (process_path env self prompt w)
  = Return (msg_timeout (timeout_seconds self / 60)).
Proof.
  intros Hpopen Hcomm Hclass. py_unfold. cbn. rewrite Hpopen. cbn.
  rewrite Hcomm. cbn. unfold is_TimeoutExpired. rewrite Hclass. reflexivity.
Qed.

Lemma process_path_unexpected
    (env : Env) (self : ChatBot) (prompt : str) (e : Exn) (name : str) (w : World) :
  outcome (env_popen env [lit "ollama"; lit "run"; model_name self]) = Raise e ->
  exn_class e = OtherError name ->
  result_of (process_path env self prompt w) = Return (msg_unknown e).
Proof.
  intros Hpopen Hclass. py_unfold. cbn. rewrite Hpopen. cbn.
  unfold is_TimeoutExpired, is_FileNotFoundError. rewrite Hclass. reflexivity.
Qed.

(** C7: [get_response] always returns a text, from any world and in any
    environment: whatever an external call raises is turned into a
    message by the handlers of lines 110-116, and no exception leaves
    the function. *)
Theorem get_response_never_raises
    (env : Env) (self : ChatBot) (user_message : str) (w : World) :
  exists s, result_of (get_response env self user_message w) = Return s.
Proof. exact (get_response_total env self user_message w). Qed.

(** C8, evaluated where the code breaks it: the listing command exits
    with status 1, and [check_model] returns [None], which is falsy but
    is not the boolean [False]. *)
Theorem check_model_returns_none :
  result_of (check_model env_listing_fails default_chatbot world0) = Return PyNone
  /\ is_bool PyNone = false
  /\ PyNone <> PyBool false.
Proof. split; [reflexivity|]. split; [reflexivity | discriminate]. Qed.

(* ================================================================== *)
(** ** The deadline *)
(* ================================================================== *)

Lemma get_response_full_deadline (env : Env) (self : ChatBot) (prompt : str) :
  appends (gets_full_deadline self) (get_response env self prompt).
Proof.
  unfold get_response, get_response_handler, check_model, structured_attempt,
    process_attempt, subprocess_run, import_requests, requests_post,
    response_json, subprocess_Popen, process_communicate.
  appends_auto.
Qed.

(** Case analysis on the innermost test the goal is stuck on. *)
Ltac split_branches :=
  repeat match goal with
         | |- context [match ?x with _ => _ end] =>
             lazymatch x with
             | context [match _ with _ => _ end] => fail
             | _ => destruct x; cbn
             end
         end.

(** The clock of a dispatch is the sum of the times of the calls it
    made: at most the listing, one post, one start of the process and
    one [communicate]. *)
Lemma latency_bound (env : Env) (self : ChatBot) (prompt : str) (a b c d : Z) :
  0 <= took (env_run env [lit "ollama"; lit "list"] 10) <= a ->
  0 <= took (posted env self prompt) <= b ->
  0 <= took (env_popen env [lit "ollama"; lit "run"; model_name self]) <= c ->
  0 <= took (env_communicate env (prompt ++ nl) (timeout_seconds self)) <= d ->
  latency env self prompt <= a + b + c + d.
Proof.
  unfold posted. intros Ha Hb Hc Hd. py_unfold. cbn.
  split_branches; lia.
Qed.

(** In [env_slow] the two attempts each use up the whole deadline. *)
Lemma env_slow_latency (T : Z) :
  latency env_slow (MkChatBot (lit "llama3.2") T) (lit "hi") = 1000 * T + 1000 * T.
Proof.
  py_unfold. cbn -[Z.mul Z.add].
  change (is_substring (lit "llama3.2") _) with true.
  cbn -[Z.mul Z.add]. lia.
Qed.

Lemma env_slow_honours (c : Z) : 0 <= c -> honours_timeouts c env_slow.
Proof.
  intros Hc. unfold honours_timeouts, env_slow; cbn -[Z.mul].
  repeat split; intros; lia.
Qed.

(** C6, as the code has it: each of the two transport calls is given
    the whole configured deadline as its timeout, whatever time has
    passed before it. With a deadline that is not negative, and in an
    environment where every call keeps to the timeout it is given, a
    dispatch takes at most the ten seconds of the availability check,
    twice the deadline, and the time to start the process. *)
Theorem deadline_given_to_each_attempt
    (c : Z) (env : Env) (self : ChatBot) (prompt : str) :
  0 <= timeout_seconds self ->
  honours_timeouts c env ->
  latency env self prompt <= 10000 + 2 * (1000 * timeout_seconds self) + c
  /\ (forall ev, In ev (events_of (dispatch env self prompt)) ->
                 gets_full_deadline self ev = true).
Proof.
  intros HT [Hrun [Hpost [Hpopen Hcomm]]]. split.
  - pose proof (latency_bound env self prompt
                  (1000 * 10) (1000 * timeout_seconds self) c
                  (1000 * timeout_seconds self)
                  (Hrun _ 10 ltac:(lia)) (Hpost _ _ _ HT) (Hpopen _) (Hcomm _ _ HT)).
    lia.
  - destruct (get_response_full_deadline env self prompt world0) as [evs [Ht Hok]].
    unfold events_of, dispatch. rewrite Ht. cbn [trace world0 app].
    intros ev Hin. exact (proj1 (forallb_forall _ _) Hok ev Hin).
Qed.

Lemma deadline_given_to_each_attempt_witness :
  latency env_slow default_chatbot (lit "hi")
  <= 10000 + 2 * (1000 * timeout_seconds default_chatbot) + 0
  /\ (forall ev, In ev (events_of (dispatch env_slow default_chatbot (lit "hi"))) ->
                 gets_full_deadline default_chatbot ev = true).
Proof.
  exact (deadline_given_to_each_attempt 0 env_slow default_chatbot (lit "hi")
           ltac:(discriminate) (env_slow_honours 0 (Z.le_refl 0))).
Defined.

(** C6 as stated fails. In [env_slow] every call keeps to its timeout,
    yet the process attempt is given the full 120 seconds after the
    structured attempt has used 120 seconds, and the dispatch takes
    twice the deadline. No overhead that is independent of the deadline
    bounds the time of a dispatch by deadline plus overhead. *)
Lemma deadline_not_shared :
  honours_timeouts 0 env_slow
  /\ In (EvCommunicate (lit "hi" ++ nl) 120)
        (events_of (dispatch env_slow default_chatbot (lit "hi")))
  /\ latency env_slow default_chatbot (lit "hi") = 240000
  /\ ~ (exists c, 0 <= c /\ returns_within_deadline c).
Proof.
  split; [apply env_slow_honours; lia|].
  split; [vm_compute; tauto|].
  split; [reflexivity|].
  intros [c [Hc Hclaim]].
  specialize (Hclaim env_slow (MkChatBot (lit "llama3.2") (c + 1)) (lit "hi")).
  rewrite env_slow_latency in Hclaim. cbn [timeout_seconds] in Hclaim.
  specialize (Hclaim ltac:(lia) (env_slow_honours c Hc)). lia.
Qed.

(* ================================================================== *)
(** ** The worker: [ChatWorker] *)
(* ================================================================== *)

Section ChatWorkerFacts.

Variable env : Env.
Variable chatbot : ChatBot.

Lemma thread_step_running (s : ChatWorker) :
  phase s = Running ->
  exists response,
    result_of (get_response env chatbot (user_message s) (after_sleep (world s)))
    = Return response
    /\ delivered (step env chatbot s ThreadStep) = delivered s ++ [response].
Proof.
  intros Hrun. unfold step. rewrite Hrun. unfold delivered. cbn [world].
  exact (run_emits_once env chatbot (user_message s) (world s)).
Qed.

Lemma step_accounted (s : ChatWorker) (a : Action) :
  accounted s -> accounted (step env chatbot s a).
Proof.
  unfold accounted. intros H.
  destruct a as [m| |].
  - exact H.
  - unfold step. destruct (phase s) eqn:Hp; try exact H.
    unfold in_flight, delivered in *. rewrite Hp in H. cbn. lia.
  - destruct (phase s) eqn:Hp.
    + unfold step. rewrite Hp. exact H.
    + destruct (thread_step_running s Hp) as [response [_ Hd]].
      rewrite Hd, length_app. unfold in_flight in *. rewrite Hp in H.
      unfold step. rewrite Hp. cbn. lia.
    + unfold step, in_flight, delivered in *. rewrite Hp in *. cbn. exact H.
Qed.

Lemma exec_accounted (sched : list Action) (s : ChatWorker) :
  accounted s -> accounted (exec env chatbot sched s).
Proof.
  revert s. induction sched as [|a sched IH]; intros s H; [exact H|].
  cbn. apply IH. apply step_accounted. exact H.
Qed.



End ChatWorkerFacts.



(* ================================================================== *)
(** ** The scenarios of the specification, run on the model *)
(* ================================================================== *)

Example scenario_A :
  result_of (dispatch env_hello default_chatbot (lit "hi")) = Return (lit "Hello!").
Proof. reflexivity. Qed.

Example scenario_B :
  result_of (dispatch env_unreachable default_chatbot (lit "hi"))
  = Return (lit "Hi there").
Proof. reflexivity. Qed.

Example scenario_C :
  result_of (dispatch env_unknown_model default_chatbot (lit "hi"))
  = Return (lit "Error: Model 'llama3.2' is not available. Please run 'ollama pull llama3.2' to download it.")
  /\ events_of (dispatch env_unknown_model default_chatbot (lit "hi"))
     = [EvRun [lit "ollama"; lit "list"] 10;
        EvPrint (DiagModelNotFound (lit "llama3.2"))].
Proof. split; reflexivity. Qed.

Example scenario_D :
  result_of (dispatch env_both_time_out default_chatbot (lit "hi"))
  = Return (msg_timeout 2)
  /\ latency env_both_time_out default_chatbot (lit "hi") = 240000.
Proof. split; reflexivity. Qed.

(** Without the binary the availability check itself fails, and the
    dispatch reports the model as unavailable. *)
Example no_binary_is_unknown_model :
  model_known env_no_binary default_chatbot = false
  /\ result_of (dispatch env_no_binary default_chatbot (lit "hi"))
     = Return (msg_unavailable default_chatbot).
Proof. split; reflexivity. Qed.

Example strip_example :
  strip (lit "  Hello, world! " ++ nl) = lit "Hello, world!".
Proof. reflexivity. Qed.

(* ================================================================== *)
(** ** More about [ChatBot] *)
(* ================================================================== *)

(** [check_model] never raises, makes the one call [ollama list] with a
    timeout of ten seconds, and returns [True] exactly when that call
    returned with status 0 and an output in which the model name
    occurs. *)
Theorem check_model_true_exactly (env : Env) (self : ChatBot) (w : World) :
  (exists v, result_of (check_model env self w) = Return v)
  /\ (result_of (check_model env self w) = Return (PyBool true) <->
      exists result a b,
        outcome (env_run env [lit "ollama"; lit "list"] 10) = Return result
        /\ cp_returncode result = 0
        /\ cp_stdout result = a ++ model_name self ++ b)
  /\ calls_of (events_of (check_model env self world0)) = [KRun]
  /\ (forall ev, In ev (events_of (check_model env self world0)) ->
                 expected_call self [] ev).
Proof.
  split; [apply check_model_total|]. split; [|split].
  - rewrite check_model_result.
    destruct (outcome (env_run env _ 10)) as [result|e].
    + destruct (Z.eqb_spec (cp_returncode result) 0) as [H0|H0].
      * split.
        -- intros H. injection H as H. apply is_substring_spec in H.
           destruct H as [a [b H]]. exists result, a, b. auto.
        -- intros [r [a [b [Hr [_ Hs]]]]]. injection Hr as <-.
           do 2 f_equal. apply is_substring_spec. exists a, b. exact Hs.
      * split; [discriminate|].
        intros [r [a [b [Hr [Hc _]]]]]. injection Hr as <-. contradiction.
    + split; [discriminate|]. intros [r [a [b [Hr _]]]]. discriminate.
  - py_unfold. cbn. split_branches; reflexivity.
  - py_unfold. cbn. split_branches; intros ev Hin; cbn in Hin;
      repeat (destruct Hin as [<-|Hin]; [cbn; auto|]); contradiction.
Qed.

(** Building a [ChatBot] never fails, whatever [ollama --version] does:
    the constructor makes that one call, prints one line, and gives a
    bot for the model "llama3.2" with the timeout it was given. *)
Theorem chatbot_init_never_fails (env : Env) (timeout : Z) :
  result_of (ChatBot_init env timeout world0)
  = Return (MkChatBot (lit "llama3.2") timeout)
  /\ events_of (ChatBot_init env timeout world0)
     = EvRun [lit "ollama"; lit "--version"] 10
       :: List.map EvPrint (prints_of (events_of (ChatBot_init env timeout world0)))
  /\ List.length (prints_of (events_of (ChatBot_init env timeout world0))) = 1%nat.
Proof.
  unfold ChatBot_init. py_unfold. cbn.
  split_branches; repeat split; reflexivity.
Qed.

(** A dispatch whose availability check is falsy stops there. *)
Lemma dispatch_unknown (env : Env) (self : ChatBot) (prompt : str) :
  model_known env self = false ->
  dispatch env self prompt
  = (fst (check_model env self world0), Return (msg_unavailable self)).
Proof.
  intros Hunknown.
  destruct (check_model_fresh env self) as [w1 [v [Hc [Hv _]]]].
  unfold dispatch, get_response, try_except, bind.
  rewrite Hc, Hv, Hunknown. reflexivity.
Qed.

(** When the listing itself cannot be run (the binary is missing, the
    call times out, anything it raises), a dispatch reports the model as
    unavailable and advises [ollama pull]; it does not return the
    message for a missing installation, and calls no transport. *)
Theorem listing_failure_reported_as_unavailable
    (env : Env) (self : ChatBot) (prompt : str) (e : Exn) :
  outcome (env_run env [lit "ollama"; lit "list"] 10) = Raise e ->
  result_of (dispatch env self prompt) = Return (msg_unavailable self)
  /\ msg_unavailable self <> msg_not_installed
  /\ calls_of (events_of (dispatch env self prompt)) = [KRun].
Proof.
  intros Hraise.
  assert (Hunknown : model_known env self = false).
  { unfold model_known. rewrite check_model_result, Hraise. reflexivity. }
  rewrite (dispatch_unknown env self prompt Hunknown).
  split; [reflexivity|]. split.
  - unfold msg_unavailable, msg_not_installed. intros H.
    apply (f_equal (fun s => List.nth 7 s 0%N)) in H. vm_compute in H. discriminate.
  - unfold events_of. cbn [fst]. py_unfold. cbn. rewrite Hraise. reflexivity.
Qed.

Lemma listing_failure_reported_as_unavailable_witness :
  result_of (dispatch env_no_binary default_chatbot (lit "hi"))
  = Return (msg_unavailable default_chatbot)
  /\ msg_unavailable default_chatbot <> msg_not_installed
  /\ calls_of (events_of (dispatch env_no_binary default_chatbot (lit "hi"))) = [KRun].
Proof.
  exact (listing_failure_reported_as_unavailable env_no_binary default_chatbot (lit "hi")
           (MkExn FileNotFoundError (lit "[Errno 2] No such file or directory: 'ollama'"))
           eq_refl).
Defined.

(** In every environment the external calls of a dispatch are, in this
    order and each at most once: the listing, the import, the post, the
    parsing of its body, the start of the process, the exchange with
    it. The listing always comes first, and nothing is tried twice. *)
Theorem dispatch_calls_in_order (env : Env) (self : ChatBot) (prompt : str) :
  is_subseq (calls_of (events_of (dispatch env self prompt)))
            [KRun; KImport; KPost; KJson; KPopen; KCommunicate] = true
  /\ List.hd_error (calls_of (events_of (dispatch env self prompt))) = Some KRun.
Proof.
  py_unfold. cbn. split_branches; split; reflexivity.
Qed.

(** Whatever the environment, each call of a dispatch has the arguments
    the source writes: the listing has a timeout of ten seconds; the
    post goes to the fixed URL with the model, the prompt as given and
    [stream] false; the process is [ollama run <model>] and is sent the
    prompt as given followed by one line feed. *)
Theorem dispatch_call_arguments (env : Env) (self : ChatBot) (prompt : str) :
  forall ev, In ev (events_of (dispatch env self prompt)) ->
             expected_call self prompt ev.
Proof.
  py_unfold. cbn. split_branches; intros ev Hin; cbn in Hin;
    repeat (destruct Hin as [<-|Hin]; [cbn; auto|]); contradiction.
Qed.

Lemma communicate_was_called :
  In (EvCommunicate (lit "hi" ++ nl) 120)
     (events_of (dispatch env_unreachable default_chatbot (lit "hi"))).
Proof. vm_compute. tauto. Qed.

Lemma dispatch_call_arguments_witness :
  expected_call default_chatbot (lit "hi") (EvCommunicate (lit "hi" ++ nl) 120).
Proof.
  exact (dispatch_call_arguments env_unreachable default_chatbot (lit "hi")
           (EvCommunicate (lit "hi" ++ nl) 120) communicate_was_called).
Defined.

Lemma falls_back_none (env : Env) (self : ChatBot) (prompt : str) :
  falls_back env self prompt ->
  forall w, result_of (structured_attempt env self prompt w) = Return None.
Proof.
  intros [[e Himport] | [Himport Hfail]] w.
  - destruct (structured_import_fails env self prompt e w Himport) as [evs [Hs _]].
    rewrite Hs. reflexivity.
  - apply structured_failure_falls_through; assumption.
Qed.

(** After a fall back the calls of the dispatch end with the start of
    the process and, when that returned, the exchange with it. *)
Lemma fall_back_calls (env : Env) (self : ChatBot) (prompt : str) :
  model_known env self = true ->
  falls_back env self prompt ->
  List.existsb (kind_eqb KCommunicate) (calls_of (events_of (dispatch env self prompt)))
  = match outcome (popened env self) with Return _ => true | Raise _ => false end.
Proof.
  intros Hknown Hfb.
  assert (Hl : exists result,
             outcome (env_run env [lit "ollama"; lit "list"] 10) = Return result
             /\ cp_returncode result = 0
             /\ is_substring (model_name self) (cp_stdout result) = true)
    by (apply model_known_iff; exact Hknown).
  destruct Hl as [result [Hl [Hrc Hsub]]].
  unfold popened. py_unfold. cbn. rewrite Hl. cbn. rewrite Hrc, Hsub. cbn.
  destruct Hfb as [[e Himport] | [Himport Hfail]].
  - rewrite Himport. cbn. split_branches; reflexivity.
  - rewrite Himport. cbn.
    destruct Hfail as [e Hp | response Hp Hs | response e Hp Hs Hj
                      | response result' e Hp Hs Hj Hshape];
      unfold posted in Hp; rewrite Hp; cbn.
    + split_branches; reflexivity.
    + apply Z.eqb_neq in Hs. rewrite Hs. cbn. split_branches; reflexivity.
    + rewrite Hs, Hj. cbn. split_branches; reflexivity.
    + rewrite Hs, Hj. cbn. destruct Hshape as [Hc | [Hc Ht]]; rewrite Hc; cbn.
      * split_branches; reflexivity.
      * rewrite Ht. cbn. split_branches; reflexivity.
Qed.

(** What the handlers make of an exception raised by [Popen]. *)
Lemma process_path_popen_raises
    (env : Env) (self : ChatBot) (prompt : str) (e : Exn) (w : World) :
  outcome (popened env self) = Raise e ->
  result_of (process_path env self prompt w)
  = Return (if is_TimeoutExpired e then msg_timeout (timeout_seconds self / 60)
            else if is_FileNotFoundError e then msg_not_installed
            else msg_unknown e).
Proof.
  unfold popened. intros Hpopen. py_unfold. cbn. rewrite Hpopen. cbn.
  destruct (is_TimeoutExpired e); [reflexivity|].
  destruct (is_FileNotFoundError e); reflexivity.
Qed.

(** When the process cannot be started, the dispatch returns a message
    chosen by the class of the exception [Popen] raised, the handlers
    being tried in the order of lines 110-116: the timeout message for
    [TimeoutExpired], the message for a missing installation for
    [FileNotFoundError], and for every class that is neither of the two
    the generic message that quotes the exception. The exchange with
    the process is then never attempted. *)
Theorem popen_failure_messages
    (env : Env) (self : ChatBot) (prompt : str) (e : Exn) :
  model_known env self = true ->
  falls_back env self prompt ->
  outcome (popened env self) = Raise e ->
  (exn_class e = TimeoutExpired ->
     result_of (dispatch env self prompt)
     = Return (msg_timeout (timeout_seconds self / 60)))
  /\ (exn_class e = FileNotFoundError ->
        result_of (dispatch env self prompt) = Return msg_not_installed)
  /\ (exn_class e <> TimeoutExpired -> exn_class e <> FileNotFoundError ->
        result_of (dispatch env self prompt)
        = Return (lit "I encountered an error: " ++ exn_str e
                  ++ lit ". Please try again."))
  /\ List.existsb (kind_eqb KCommunicate)
       (calls_of (events_of (dispatch env self prompt))) = false.
Proof.
  intros Hknown Hfb Hpopen.
  destruct (dispatch_falls_through env self prompt Hknown
              (falls_back_none env self prompt Hfb)) as [_ Hr].
  rewrite Hr, (process_path_popen_raises env self prompt e world0 Hpopen).
  unfold is_TimeoutExpired, is_FileNotFoundError.
  split; [|split; [|split]].
  - intros Hc. rewrite Hc. reflexivity.
  - intros Hc. rewrite Hc. reflexivity.
  - intros Ht Hf. destruct (exn_class e); try reflexivity; contradiction.
  - rewrite (fall_back_calls env self prompt Hknown Hfb), Hpopen. reflexivity.
Qed.

Lemma popen_missing_falls_back :
  falls_back env_popen_missing default_chatbot (lit "hi").
Proof. right. split; [reflexivity|]. eapply ConnectionFailure. reflexivity. Qed.

Lemma popen_failure_messages_witness :
  result_of (dispatch env_popen_missing default_chatbot (lit "hi"))
  = Return msg_not_installed.
Proof.
  exact (proj1 (proj2 (popen_failure_messages env_popen_missing default_chatbot
                         (lit "hi")
                         (MkExn FileNotFoundError
                            (lit "[Errno 2] No such file or directory: 'ollama'"))
                         eq_refl popen_missing_falls_back eq_refl)) eq_refl).
Defined.

(** When the exchange with the process runs out of time, the dispatch
    returns the timeout message, in which the number of minutes is the
    configured timeout in seconds divided by 60 and rounded down: with
    a timeout below one minute the message says "over 0 minutes". *)
Theorem process_timeout_message
    (env : Env) (self : ChatBot) (prompt : str) (e : Exn) :
  model_known env self = true ->
  falls_back env self prompt ->
  outcome (popened env self) = Return tt ->
  outcome (communicated env self prompt) = Raise e ->
  exn_class e = TimeoutExpired ->
  result_of (dispatch env self prompt)
  = Return (msg_timeout (timeout_seconds self / 60))
  /\ 60 * (timeout_seconds self / 60) <= timeout_seconds self
     < 60 * (timeout_seconds self / 60) + 60
  /\ (0 <= timeout_seconds self < 60 ->
      result_of (dispatch env self prompt) = Return (msg_timeout 0)).
Proof.
  intros Hknown Hfb Hpopen Hcomm Hclass.
  destruct (dispatch_falls_through env self prompt Hknown
              (falls_back_none env self prompt Hfb)) as [_ Hr].
  rewrite Hr.
  rewrite (process_path_timeout env self prompt e world0 Hpopen Hcomm Hclass).
  split; [reflexivity|]. split.
  - pose proof (Z.mul_div_le (timeout_seconds self) 60 ltac:(lia)).
    pose proof (Z.mul_succ_div_gt (timeout_seconds self) 60 ltac:(lia)). lia.
  - intros Hsmall. rewrite (Z.div_small _ _ Hsmall). reflexivity.
Qed.

Lemma both_time_out_falls_back :
  falls_back env_both_time_out default_chatbot (lit "hi").
Proof. right. split; [reflexivity|]. eapply ConnectionFailure. reflexivity. Qed.

Lemma process_timeout_message_witness :
  result_of (dispatch env_both_time_out default_chatbot (lit "hi"))
  = Return (msg_timeout 2).
Proof.
  exact (proj1 (process_timeout_message env_both_time_out default_chatbot (lit "hi")
                  (MkExn TimeoutExpired (lit "Command timed out"))
                  eq_refl both_time_out_falls_back eq_refl eq_refl eq_refl)).
Defined.

(** When the process exits with a non-zero status and its stderr is not
    empty but holds white space only, the message carries no detail at
    all: the placeholder "Unknown error" is used for an empty stderr
    only, the test being made before the stripping. *)
Theorem blank_stderr_gives_empty_detail
    (env : Env) (self : ChatBot) (prompt : str) (r : Communicated) :
  model_known env self = true ->
  falls_back env self prompt ->
  outcome (popened env self) = Return tt ->
  outcome (communicated env self prompt) = Return r ->
  returncode r <> 0 ->
  stderr r <> [] ->
  all_space (stderr r) = true ->
  result_of (dispatch env self prompt) = Return (lit "Error running Llama model: ").
Proof.
  intros Hknown Hfb Hpopen Hcomm Hrc Hne Hspace.
  destruct (dispatch_falls_through env self prompt Hknown
              (falls_back_none env self prompt Hfb)) as [_ Hr].
  rewrite Hr. unfold popened, communicated in *.
  py_unfold. cbn. rewrite Hpopen. cbn. rewrite Hcomm. cbn.
  unfold process_result. apply Z.eqb_neq in Hrc. rewrite Hrc. cbn.
  destruct (stderr r) as [|c s] eqn:Hs; [contradiction|]. cbn [nonempty].
  apply strip_nil in Hspace. rewrite Hspace.
  unfold msg_process_error. rewrite app_nil_r. reflexivity.
Qed.

Lemma blank_stderr_falls_back :
  falls_back env_blank_stderr default_chatbot (lit "hi").
Proof. right. split; [reflexivity|]. eapply ConnectionFailure. reflexivity. Qed.

Lemma blank_stderr_gives_empty_detail_witness :
  result_of (dispatch env_blank_stderr default_chatbot (lit "hi"))
  = Return (lit "Error running Llama model: ").
Proof.
  exact (blank_stderr_gives_empty_detail env_blank_stderr default_chatbot (lit "hi")
           (MkCommunicated [] nl 1) eq_refl blank_stderr_falls_back eq_refl eq_refl
           ltac:(discriminate) ltac:(discriminate) eq_refl).
Defined.

(** A payload with status 200 that is not an object with a text in its
    response field does not stop the dispatch: when the payload is
    [null], a boolean or a number, or an object whose response field
    holds anything but a string, the process transport is started once
    and its result is what the dispatch returns. *)
Theorem non_text_payload_falls_back
    (env : Env) (self : ChatBot) (prompt : str)
    (response : Response) (result : PyVal) :
  model_known env self = true ->
  env_import_requests env = Return tt ->
  outcome (posted env self prompt) = Return response ->
  status_code response = 200 ->
  json response = Return result ->
  is_scalar result = true
  \/ (exists d v, result = PyDict d
                  /\ dict_get (lit "response") d = Some v
                  /\ not_text v = true) ->
  process_starts (events_of (dispatch env self prompt)) = 1%nat
  /\ result_of (dispatch env self prompt)
     = result_of (process_path env self prompt world0).
Proof.
  intros Hknown Himport Hp Hs Hj Hshape.
  apply dispatch_falls_through; [exact Hknown|].
  intros w. apply structured_failure_falls_through; [exact Himport|].
  destruct Hshape as [Hscalar | [d [v [-> [Hd Hv]]]]].
  - destruct result; try discriminate;
      (eapply UnusablePayload; [exact Hp | exact Hs | exact Hj |]);
      left; reflexivity.
  - destruct v; try discriminate;
      (eapply UnusablePayload; [exact Hp | exact Hs | exact Hj |]);
      right; unfold response_text; cbn; rewrite Hd; split; reflexivity.
Qed.

Lemma non_text_payload_falls_back_witness :
  process_starts (events_of (dispatch env_null_field default_chatbot (lit "hi"))) = 1%nat
  /\ result_of (dispatch env_null_field default_chatbot (lit "hi"))
     = Return (lit "Hi there").
Proof.
  exact (non_text_payload_falls_back env_null_field default_chatbot (lit "hi")
           (MkResponse 200 [] (Return (PyDict [(lit "response", PyNone)])))
           (PyDict [(lit "response", PyNone)])
           eq_refl eq_refl eq_refl eq_refl eq_refl
           (or_intror (ex_intro _ [(lit "response", PyNone)]
                         (ex_intro _ PyNone (conj eq_refl (conj eq_refl eq_refl)))))).
Defined.

(* ================================================================== *)
(** ** More about [ChatWorker] *)
(* ================================================================== *)

(** What [get_response] returns does not depend on what happened
    before: it keeps nothing from one call to the next. *)
Lemma get_response_result_indep
    (env : Env) (self : ChatBot) (prompt : str) (w w' : World) :
  result_of (get_response env self prompt w)
  = result_of (get_response env self prompt w').
Proof. py_unfold. cbn. split_branches; reflexivity. Qed.

Lemma get_response_answer (env : Env) (self : ChatBot) (prompt : str) (w : World) :
  result_of (get_response env self prompt w) = Return (answer env self prompt).
Proof.
  unfold answer, dispatch.
  rewrite (get_response_result_indep env self prompt w world0).
  destruct (get_response_total env self prompt world0) as [s Hs].
  rewrite Hs. reflexivity.
Qed.

Section Rounds.

Variable env : Env.
Variable chatbot : ChatBot.

Lemma exec_app (a b : list Action) (s : ChatWorker) :
  exec env chatbot (a ++ b) s = exec env chatbot b (exec env chatbot a s).
Proof. apply fold_left_app. Qed.

(** One submit to an idle worker, run to its end. *)
Lemma round_idle (s : ChatWorker) (m : str) :
  phase s = Idle ->
  phase (exec env chatbot (round m) s) = Idle
  /\ delivered (exec env chatbot (round m) s)
     = delivered s ++ [answer env chatbot m].
Proof.
  intros Hidle. unfold round, process_message. cbn. rewrite Hidle. cbn.
  split; [reflexivity|].
  unfold delivered. cbn.
  destruct (run_emits_once env chatbot m (world s)) as [response [Hr He]].
  rewrite get_response_answer in Hr. injection Hr as <-. exact He.
Qed.

Lemma rounds_idle (ms : list str) (s : ChatWorker) :
  phase s = Idle ->
  phase (exec env chatbot (flat_map round ms) s) = Idle
  /\ delivered (exec env chatbot (flat_map round ms) s)
     = delivered s ++ List.map (answer env chatbot) ms.
Proof.
  revert s. induction ms as [|m ms IH]; intros s Hidle.
  - cbn. rewrite app_nil_r. auto.
  - cbn [flat_map List.map]. rewrite exec_app.
    destruct (round_idle s m Hidle) as [Hp Hd].
    destruct (IH _ Hp) as [Hp' Hd'].
    split; [exact Hp'|]. rewrite Hd', Hd, <- app_assoc. reflexivity.
Qed.

End Rounds.

(** When each submit is made only after the run of the one before has
    ended, every submit gets its own callback, and the callbacks come in
    the order of the submits, each with the answer of [get_response] to
    its own prompt. *)
Theorem sequential_submits_answered_in_order
    (env : Env) (chatbot : ChatBot) (messages : list str) :
  delivered (exec env chatbot (flat_map round messages) new_worker)
  = List.map (answer env chatbot) messages
  /\ phase (exec env chatbot (flat_map round messages) new_worker) = Idle
  /\ started (exec env chatbot (flat_map round messages) new_worker)
     = List.length messages.
Proof.
  destruct (rounds_idle env chatbot messages new_worker eq_refl) as [Hp Hd].
  change (delivered new_worker) with (@nil str) in Hd. cbn [app] in Hd.
  split; [exact Hd|]. split; [exact Hp|].
  assert (Hacc : accounted (exec env chatbot (flat_map round messages) new_worker))
    by (apply exec_accounted; reflexivity).
  unfold accounted, in_flight in Hacc. rewrite Hp, Hd, length_map in Hacc.
  cbn in Hacc. lia.
Qed.



(* ================================================================== *)
(** ** The window: [ChatbotUI] *)
(* ================================================================== *)

Module UIFacts.

Import UI.

Lemma insertWidget_after (ms : list ChatMessage) (item : Item) (rest : list Item) :
  insertWidget (Z.of_nat (List.length ms)) item (List.map MessageWidget ms ++ rest)
  = List.map MessageWidget ms ++ item :: rest.
Proof.
  unfold insertWidget.
  destruct (Z.ltb_spec (Z.of_nat (List.length ms)) 0) as [Hneg|_]; [lia|].
  rewrite Nat2Z.id.
  rewrite <- (length_map MessageWidget ms).
  rewrite firstn_app, firstn_all, Nat.sub_diag, skipn_app, skipn_all, Nat.sub_diag.
  cbn. rewrite app_nil_r. reflexivity.
Qed.

Lemma insert_message (ms : list ChatMessage) (m : ChatMessage) (rest : list Item) :
  insertWidget (Z.of_nat (List.length (ms ++ [m])) - 1) (MessageWidget m)
    (List.map MessageWidget ms ++ rest)
  = List.map MessageWidget (ms ++ [m]) ++ rest.
Proof.
  rewrite length_app. cbn [List.length].
  replace (Z.of_nat (List.length ms + 1) - 1) with (Z.of_nat (List.length ms)) by lia.
  rewrite insertWidget_after, map_app, <- app_assoc. reflexivity.
Qed.

Lemma insertWidget_keeps (index : Z) (item x : Item) (layout : list Item) :
  In x layout -> In x (insertWidget index item layout).
Proof.
  intros Hin. unfold insertWidget. destruct (index <? 0).
  - apply in_or_app. left. exact Hin.
  - rewrite <- (firstn_skipn (Z.to_nat index) layout) in Hin.
    apply in_app_or in Hin. apply in_or_app.
    destruct Hin as [H|H]; [left; exact H | right; right; exact H].
Qed.

Lemma removeWidget_messages (g : nat) (ms : list ChatMessage) (rest : list Item) :
  removeWidget g (List.map MessageWidget ms ++ rest)
  = List.map MessageWidget ms ++ removeWidget g rest.
Proof. induction ms as [|m ms IH]; cbn; [reflexivity | rewrite IH; reflexivity]. Qed.

(** Taking a widget out leaves a list of widgets, all of them among
    those that were there. *)
Lemma removeWidget_gens (g : nat) (gens : list nat) :
  exists gens',
    removeWidget g (List.map GeneratingWidget gens ++ [Stretch])
    = List.map GeneratingWidget gens' ++ [Stretch]
    /\ incl gens' gens.
Proof.
  induction gens as [|x gens [gens' [IH Hincl]]]; cbn.
  - exists []. split; [reflexivity | apply incl_refl].
  - destruct (Nat.eqb x g).
    + exists gens. split; [reflexivity | apply incl_tl, incl_refl].
    + exists (x :: gens'). cbn. rewrite IH. split; [reflexivity|].
      apply incl_cons; [left; reflexivity | apply incl_tl; exact Hincl].
Qed.

Lemma removeWidget_other (g x : nat) (layout : list Item) :
  x <> g ->
  In (GeneratingWidget x) layout ->
  In (GeneratingWidget x) (removeWidget g layout).
Proof.
  intros Hne. induction layout as [|item layout IH]; cbn; [tauto|].
  intros [Hhd|Htl].
  - subst item. destruct (Nat.eqb_spec x g); [contradiction | left; reflexivity].
  - destruct item as [|m|y]; try (right; exact (IH Htl)).
    destruct (Nat.eqb y g); [exact Htl | right; exact (IH Htl)].
Qed.

Section Window.

Variable env : Env.
Variable chatbot : ChatBot.

Lemma add_message_consistent (gens : list nat) (now : Z) (t : str) (u : bool)
    (self : ChatbotUI) :
  consistent gens self -> consistent gens (add_message now t u self).
Proof.
  intros [Hlay [Hfresh Hgen]]. unfold consistent, laid_out, add_message in *. cbn.
  split; [|split].
  - rewrite Hlay, length_app. cbn [List.length].
    replace (Z.of_nat (List.length (messages self) + 1) - 1)
      with (Z.of_nat (List.length (messages self))) by lia.
    rewrite insertWidget_after, map_app, <- app_assoc. reflexivity.
  - exact Hfresh.
  - exact Hgen.
Qed.

Lemma send_message_consistent (gens : list nat) (now now' : Z) (self : ChatbotUI) :
  consistent gens self ->
  exists gens', consistent gens' (send_message env chatbot now now' self).
Proof.
  intros Hc. unfold send_message.
  destruct (nonempty (strip (message_input self))); cbn [negb].
  2: exists gens; exact Hc.
  destruct (add_message_consistent gens now (strip (message_input self)) true self Hc)
    as [Hlay [Hfresh Hgen]].
  exists (fresh self :: gens).
  unfold consistent, laid_out in *. cbn in *. split; [|split].
  - rewrite Hlay. rewrite insertWidget_after. reflexivity.
  - constructor; [lia|].
    eapply Forall_impl; [|exact Hfresh]. cbn. intros; lia.
  - intros g Hg. injection Hg as <-. split; [left; reflexivity | discriminate].
Qed.

Lemma handle_bot_response_consistent (gens : list nat) (response : str) (now : Z)
    (self : ChatbotUI) :
  consistent gens self ->
  exists self' gens',
    handle_bot_response response now self = Return self'
    /\ consistent gens' self'
    /\ generating_widget self' = None.
Proof.
  intros Hc. unfold handle_bot_response, remove_generating_message.
  destruct (generating_widget self) as [g|] eqn:Hg.
  - destruct Hc as [Hlay [Hfresh Hgen]].
    destruct (Hgen g Hg) as [Hin Htimer].
    destruct (typing_timer self) as [timer|] eqn:Ht; [|contradiction].
    destruct (removeWidget_gens g gens) as [gens' [Hrem Hincl]].
    eexists _, gens'. split; [reflexivity|]. split; [|reflexivity].
    apply add_message_consistent.
    unfold consistent, laid_out in *. cbn. split; [|split].
    + rewrite Hlay, removeWidget_messages, Hrem. reflexivity.
    + rewrite Forall_forall in *. intros x Hx. apply Hfresh, Hincl, Hx.
    + discriminate.
  - eexists _, gens. split; [reflexivity|]. split; [|exact Hg].
    apply add_message_consistent. exact Hc.
Qed.

Lemma happen_consistent (gens : list nat) (self : ChatbotUI) (h : Happening) :
  consistent gens self ->
  exists self' gens', happen env chatbot self h = Return self' /\ consistent gens' self'.
Proof.
  intros Hc. destruct h as [input|now now'|response now|]; cbn [happen].
  - eexists _, gens. split; [reflexivity|]. exact Hc.
  - destruct (send_message_consistent gens now now' self Hc) as [gens' Hc'].
    eexists _, gens'. split; [reflexivity | exact Hc'].
  - destruct (handle_bot_response_consistent gens response now self Hc)
      as [self' [gens' [Hr [Hc' _]]]].
    exists self', gens'. split; assumption.
  - eexists _, gens. split; [reflexivity|].
    unfold animate_typing_dots. destruct (typing_dots self); exact Hc.
Qed.

Lemma happen_all_consistent (hs : list Happening) (gens : list nat) (self : ChatbotUI) :
  consistent gens self ->
  exists self' gens',
    happen_all env chatbot self hs = Return self' /\ consistent gens' self'.
Proof.
  revert gens self. induction hs as [|h hs IH]; intros gens self Hc; cbn.
  - exists self, gens. split; [reflexivity | exact Hc].
  - destruct (happen_consistent gens self h Hc) as [self1 [gens1 [Hh Hc1]]].
    rewrite Hh. exact (IH gens1 self1 Hc1).
Qed.

Lemma init_consistent (now : Z) : consistent [] (init now).
Proof.
  unfold init. apply add_message_consistent.
  unfold consistent, laid_out. cbn. split; [reflexivity|].
  split; [constructor | discriminate].
Qed.

End Window.

(** Whatever the user and the worker do, in whatever order, no method
    of the window raises, and the layout always shows the messages of
    the log in the order of the log, then the "Generating..." widgets,
    then the stretch. *)
Theorem layout_follows_log
    (env : Env) (chatbot : ChatBot) (now : Z) (hs : list Happening) :
  exists self gens,
    happen_all env chatbot (init now) hs = Return self
    /\ messages_layout self
       = List.map MessageWidget (messages self)
         ++ List.map GeneratingWidget gens ++ [Stretch].
Proof.
  destruct (happen_all_consistent env chatbot hs [] (init now) (init_consistent now))
    as [self [gens [Hr [Hlay _]]]].
  exists self, gens. split; [exact Hr | exact Hlay].
Qed.

(** Sending a blank input line (empty, or white space only) changes
    nothing: no message is logged, no widget is added, the input is not
    cleared, and the worker is not called. *)
Theorem blank_input_not_sent
    (env : Env) (chatbot : ChatBot) (now now' : Z) (self : ChatbotUI) :
  all_space (message_input self) = true ->
  send_message env chatbot now now' self = self.
Proof.
  intros Hblank. unfold send_message.
  apply strip_nil in Hblank. rewrite Hblank. reflexivity.
Qed.

Lemma blank_input_not_sent_witness :
  send_message env_hello default_chatbot 1 2
    (edit (lit "   ") (init 0))
  = edit (lit "   ") (init 0).
Proof.
  exact (blank_input_not_sent env_hello default_chatbot 1 2
           (edit (lit "   ") (init 0)) eq_refl).
Defined.

(** The log only grows, and only by what was sent and what was
    answered: a send adds the stripped input as a message of the user
    (nothing when the input is blank), an answer of the worker adds the
    response as it came, not stripped, as a message of the bot; editing
    and the typing timer add nothing. Over any run the log before is
    the beginning of the log after. *)
Theorem log_is_append_only
    (env : Env) (chatbot : ChatBot) (self : ChatbotUI) :
  (forall h,
     match happen env chatbot self h with
     | Return self' => messages self' = messages self ++ added self h
     | Raise _ => generating_widget self <> None /\ typing_timer self = None
     end)
  /\ (forall hs,
        match happen_all env chatbot self hs with
        | Return self' => exists more, messages self' = messages self ++ more
        | Raise _ => True
        end).
Proof.
  assert (Hstep : forall self0 h,
             match happen env chatbot self0 h with
             | Return self' => messages self' = messages self0 ++ added self0 h
             | Raise _ => generating_widget self0 <> None /\ typing_timer self0 = None
             end).
  { intros self0 [input|now now'|response now|]; cbn.
    - rewrite app_nil_r. reflexivity.
    - unfold send_message. destruct (nonempty (strip (message_input self0))); cbn.
      + reflexivity.
      + rewrite app_nil_r. reflexivity.
    - unfold handle_bot_response, remove_generating_message.
      destruct (generating_widget self0) as [g|]; [|reflexivity].
      destruct (typing_timer self0) as [timer|]; [reflexivity|].
      split; [discriminate | reflexivity].
    - unfold animate_typing_dots. destruct (typing_dots self0); cbn;
        rewrite app_nil_r; reflexivity. }
  split; [apply Hstep|].
  intros hs. revert self. induction hs as [|h hs IH]; intros self; cbn.
  - exists []. rewrite app_nil_r. reflexivity.
  - pose proof (Hstep self h) as Hh.
    destruct (happen env chatbot self h) as [self1|e]; [|exact I].
    specialize (IH self1).
    destruct (happen_all env chatbot self1 hs) as [self2|e]; [|exact I].
    destruct IH as [more Hmore].
    exists (added self h ++ more). rewrite Hmore, Hh, <- app_assoc. reflexivity.
Qed.

(** One exchange. In a window that shows no "Generating..." widget,
    typing a text that is not blank, sending it and receiving the
    answer adds two messages to the log, the stripped text of the user
    and then the response; the layout shows the log followed by the
    stretch alone, the input line is empty, no indicator is left, and
    the worker was handed the stripped text. *)
Theorem exchange_round_trip
    (env : Env) (chatbot : ChatBot) (self : ChatbotUI)
    (input response : str) (now now' now'' : Z) :
  consistent [] self ->
  all_space input = false ->
  exists self',
    happen_all env chatbot self
      [Edit input; Send now now'; Respond response now''] = Return self'
    /\ messages self'
       = messages self ++ [MkChatMessage (strip input) true now;
                           MkChatMessage response false now'']
    /\ messages_layout self' = List.map MessageWidget (messages self') ++ [Stretch]
    /\ generating_widget self' = None
    /\ message_input self' = []
    /\ chat_worker self'
       = exec env chatbot (process_message (strip input)) (chat_worker self).
Proof.
  intros [Hlay _] Hblank.
  assert (Hne : nonempty (strip input) = true).
  { destruct (strip input) eqn:Hs; [|reflexivity].
    apply strip_nil in Hs. congruence. }
  unfold laid_out in Hlay. cbn in Hlay.
  cbn [happen_all happen]. unfold send_message, edit. cbn [message_input].
  rewrite Hne. cbn [negb].
  unfold handle_bot_response, remove_generating_message, add_generating_message,
    add_message.
  cbn -[strip insertWidget removeWidget Z.of_nat Z.sub].
  eexists. split; [reflexivity|].
  cbn -[strip insertWidget removeWidget Z.of_nat Z.sub].
  split; [rewrite <- app_assoc; reflexivity|].
  split; [|split; [reflexivity|split; reflexivity]].
  rewrite Hlay, insert_message, insertWidget_after, removeWidget_messages.
  cbn [removeWidget]. rewrite Nat.eqb_refl. apply insert_message.
Qed.

Lemma exchange_round_trip_witness :
  exists self',
    happen_all env_hello default_chatbot (init 0)
      [Edit (lit " hi "); Send 1 2; Respond (lit "Hello!") 3] = Return self'
    /\ messages self'
       = messages (init 0) ++ [MkChatMessage (strip (lit " hi ")) true 1;
                               MkChatMessage (lit "Hello!") false 3]
    /\ messages_layout self' = List.map MessageWidget (messages self') ++ [Stretch]
    /\ generating_widget self' = None
    /\ message_input self' = []
    /\ chat_worker self'
       = exec env_hello default_chatbot (process_message (strip (lit " hi ")))
           (chat_worker (init 0)).
Proof.
  exact (exchange_round_trip env_hello default_chatbot (init 0)
           (lit " hi ") (lit "Hello!") 1 2 3 (init_consistent 0) eq_refl).
Defined.

(** A "Generating..." widget that is in the layout and is not the one
    the window remembers stays in the layout whatever happens next. *)
Definition stale (g : nat) (self : ChatbotUI) : Prop :=
  In (GeneratingWidget g) (messages_layout self)
  /\ generating_widget self <> Some g
  /\ (g < fresh self)%nat.

Lemma happen_stale (env : Env) (chatbot : ChatBot) (g : nat)
    (self self' : ChatbotUI) (h : Happening) :
  stale g self -> happen env chatbot self h = Return self' -> stale g self'.
Proof.
  intros [Hin [Hother Hfresh]]. unfold stale.
  destruct h as [input|now now'|response now|]; cbn [happen]; intros Hh.
  - injection Hh as <-. repeat split; assumption.
  - injection Hh as <-. unfold send_message.
    destruct (nonempty (strip (message_input self))); cbn [negb].
    2: repeat split; assumption.
    cbn. split; [|split].
    + apply insertWidget_keeps, insertWidget_keeps. exact Hin.
    + intros Heq. injection Heq as Heq. lia.
    + lia.
  - unfold handle_bot_response, remove_generating_message in Hh.
    destruct (generating_widget self) as [g'|] eqn:Hg.
    + destruct (typing_timer self) as [timer|]; [|discriminate].
      injection Hh as <-. cbn. split; [|split].
      * apply insertWidget_keeps, removeWidget_other; [|exact Hin].
        intros ->. apply Hother. reflexivity.
      * discriminate.
      * exact Hfresh.
    + injection Hh as <-. cbn. split; [|split].
      * apply insertWidget_keeps. exact Hin.
      * rewrite Hg. discriminate.
      * exact Hfresh.
  - injection Hh as <-. unfold animate_typing_dots.
    destruct (typing_dots self); cbn; repeat split; assumption.
Qed.

Lemma happen_all_stale (env : Env) (chatbot : ChatBot) (g : nat)
    (hs : list Happening) (self self' : ChatbotUI) :
  stale g self -> happen_all env chatbot self hs = Return self' -> stale g self'.
Proof.
  revert self. induction hs as [|h hs IH]; intros self Hs; cbn.
  - intros H. injection H as <-. exact Hs.
  - destruct (happen env chatbot self h) as [self1|e] eqn:Hh; [|discriminate].
    apply IH. exact (happen_stale env chatbot g self self1 h Hs Hh).
Qed.

(** Sending a second text while the "Generating..." widget of the first
    is still shown makes the window forget that widget: whatever
    happens afterwards, answers included, it is never taken out of the
    layout again. *)
Theorem overwritten_indicator_never_removed
    (env : Env) (chatbot : ChatBot) (gens : list nat) (self self' : ChatbotUI)
    (g : nat) (now now' : Z) (hs : list Happening) :
  consistent gens self ->
  generating_widget self = Some g ->
  all_space (message_input self) = false ->
  happen_all env chatbot (send_message env chatbot now now' self) hs = Return self' ->
  In (GeneratingWidget g) (messages_layout self').
Proof.
  intros [Hlay [Hfresh Hgen]] Hg Hblank Hrun.
  assert (Hne : nonempty (strip (message_input self)) = true).
  { destruct (strip (message_input self)) eqn:Hs; [|reflexivity].
    apply strip_nil in Hs. congruence. }
  destruct (Hgen g Hg) as [Hin _].
  assert (Hlt : (g < fresh self)%nat)
    by (rewrite Forall_forall in Hfresh; exact (Hfresh g Hin)).
  refine (proj1 (happen_all_stale env chatbot g hs _ self' _ Hrun)).
  unfold stale, send_message. rewrite Hne. cbn. split; [|split].
  - apply insertWidget_keeps, insertWidget_keeps. rewrite Hlay.
    apply in_or_app. right. apply in_or_app. left.
    apply in_map. exact Hin.
  - intros Heq. injection Heq as Heq. lia.
  - lia.
Qed.

Lemma showing_indicator_consistent :
  consistent [0%nat]
    (edit (lit "again") (send_message env_hello default_chatbot 1 2
                           (edit (lit "hi") (init 0)))).
Proof.
  unfold consistent, laid_out. split; [reflexivity|]. split.
  - repeat constructor.
  - intros g Hg. injection Hg as <-. split; [left; reflexivity | discriminate].
Qed.

Lemma overwritten_indicator_never_removed_witness :
  In (GeneratingWidget 0)
     (messages_layout
        match happen_all env_hello default_chatbot (init 0)
                [Edit (lit "hi"); Send 1 2; Edit (lit "again"); Send 3 4;
                 Respond (lit "Hello!") 5]
        with
        | Return self' => self'
        | Raise _ => init 0
        end).
Proof.
  exact (overwritten_indicator_never_removed env_hello default_chatbot [0%nat]
           (edit (lit "again") (send_message env_hello default_chatbot 1 2
                                  (edit (lit "hi") (init 0))))
           _ 0%nat 3 4 [Respond (lit "Hello!") 5]
           showing_indicator_consistent eq_refl eq_refl eq_refl).
Defined.

Lemma light_length (i : nat) (dots : list Colour) :
  List.length (light i dots) = List.length dots.
Proof.
  revert i. induction dots as [|d dots IH]; intros [|i]; cbn; try reflexivity.
  rewrite IH. reflexivity.
Qed.

Lemma dim_all (dots : list Colour) :
  List.map (fun _ => Dimmed) dots = List.repeat Dimmed (List.length dots).
Proof. induction dots as [|d dots IH]; cbn; [reflexivity | rewrite IH; reflexivity]. Qed.

(** One firing of the typing timer. *)
Lemma tick_once (self : ChatbotUI) :
  (typing_dot_index self < List.length (typing_dots self))%nat ->
  typing_dot_index (animate_typing_dots self)
  = Nat.modulo (S (typing_dot_index self)) (List.length (typing_dots self))
  /\ typing_dots (animate_typing_dots self)
     = only_lit (typing_dot_index self) (List.length (typing_dots self)).
Proof.
  intros Hlt. unfold animate_typing_dots, only_lit.
  destruct (typing_dots self) as [|d dots] eqn:Hd; [cbn in Hlt; lia|].
  cbn [typing_dot_index typing_dots].
  apply Nat.ltb_lt in Hlt. rewrite Hlt, dim_all. split; reflexivity.
Qed.

(** The typing animation: with [L] dots and the index within them, the
    index after [n] firings of the timer has advanced by [n] around the
    [L] dots, the number of dots does not change, and after each firing
    exactly the dot at the index of before is lit and all others are
    dimmed. The index never leaves the dots. *)
Theorem typing_dots_cycle (self : ChatbotUI) (n : nat) :
  (typing_dot_index self < List.length (typing_dots self))%nat ->
  typing_dot_index (ticks n self)
  = Nat.modulo (typing_dot_index self + n) (List.length (typing_dots self))
  /\ List.length (typing_dots (ticks n self)) = List.length (typing_dots self)
  /\ (typing_dot_index (ticks n self) < List.length (typing_dots self))%nat
  /\ ((0 < n)%nat ->
      typing_dots (ticks n self)
      = only_lit (Nat.modulo (typing_dot_index self + n - 1)
                             (List.length (typing_dots self)))
                 (List.length (typing_dots self))).
Proof.
  intros Hlt.
  assert (HL : List.length (typing_dots self) <> 0%nat) by lia.
  induction n as [|n [Hidx [Hlen [Hin _]]]].
  - cbn [ticks]. rewrite Nat.add_0_r, (Nat.mod_small _ _ Hlt).
    repeat split; try assumption. lia.
  - cbn [ticks]. rewrite <- Hlen in Hin.
    destruct (tick_once (ticks n self) Hin) as [Hi Hd].
    rewrite Hlen in Hi, Hd.
    assert (Hnext : typing_dot_index (animate_typing_dots (ticks n self))
                    = Nat.modulo (typing_dot_index self + S n)
                                 (List.length (typing_dots self))).
    { rewrite Hi, Hidx.
      replace (S (Nat.modulo (typing_dot_index self + n)
                             (List.length (typing_dots self))))
        with (Nat.modulo (typing_dot_index self + n)
                         (List.length (typing_dots self)) + 1)%nat by lia.
      rewrite Nat.Div0.add_mod_idemp_l. f_equal. lia. }
    split; [exact Hnext|]. split; [|split].
    + rewrite Hd. unfold only_lit. rewrite light_length, repeat_length. reflexivity.
    + rewrite Hnext. apply Nat.mod_upper_bound. exact HL.
    + intros _. rewrite Hd, Hidx. do 2 f_equal. lia.
Qed.

Lemma typing_dots_cycle_witness :
  typing_dot_index (ticks 4 (add_generating_message 0 (init 0))) = 1%nat
  /\ typing_dots (ticks 4 (add_generating_message 0 (init 0)))
     = [Lit; Dimmed; Dimmed].
Proof.
  pose proof (typing_dots_cycle (add_generating_message 0 (init 0)) 4
                ltac:(cbn; lia)) as [Hi [_ [_ Hd]]].
  split; [exact Hi | exact (Hd ltac:(lia))].
Defined.

End UIFacts.
